(** * ask_service: context builder, prompt assembly and response normalizer

  A shallow embedding of [backend/ask_service.py].  Python [str] values
  are modelled by [string]; a character is a code point below 256, and
  the character classes of [str.strip] and [str.lower] are the ones
  Python uses on that range; an integer is one that [str] renders (at
  most 4300 digits).  Python dictionaries are association lists in
  insertion order, lists are [list], and a raised exception is the
  [Err] branch of [result]. *)

From Stdlib Require Import String Ascii List Arith ZArith QArith Bool Lia.
From Stdlib Require Import Numbers.DecimalString.
From Equations.Prop Require Import Equations Logic.
Import ListNotations.

Local Open Scope string_scope.
Local Open Scope list_scope.
Local Open Scope nat_scope.

(** ** Python string primitives *)

Module Str.

(** The line feed character, Python's ["\n"]. *)
Definition LF : ascii := "010"%char.
Definition nl : string := String LF "".

(** [c.isspace()] for a code point below 256: the characters that
    [str.strip()] removes. *)
Definition isspace (c : ascii) : bool :=
  let n := nat_of_ascii c in
  ((9 <=? n) && (n <=? 13)) || ((28 <=? n) && (n <=? 32))
  || (n =? 133) || (n =? 160).

Fixpoint lstrip (s : string) : string :=
  match s with
  | "" => ""
  | String c s' => if isspace c then lstrip s' else s
  end.

Fixpoint rstrip (s : string) : string :=
  match s with
  | "" => ""
  | String c s' =>
      match rstrip s' with
      | "" => if isspace c then "" else String c ""
      | r => String c r
      end
  end.

(** [s.strip()] *)
Definition strip (s : string) : string := rstrip (lstrip s).

(** [s.startswith(p)] *)
Definition startswith (p s : string) : bool := String.prefix p s.

(** [s.startswith((p1, p2, ...))] *)
Definition startswith_any (ps : list string) (s : string) : bool :=
  existsb (fun p => startswith p s) ps.

(** [sub in s] *)
Fixpoint contains (sub s : string) : bool :=
  startswith sub s
  || match s with
     | "" => false
     | String _ s' => contains sub s'
     end.

(** Truth value of a string: [bool(s)]. *)
Definition nonempty (s : string) : bool :=
  match s with "" => false | _ => true end.

(** [s.split("\n")] *)
Fixpoint split_lines (s : string) : list string :=
  match s with
  | "" => [""]
  | String c s' =>
      if Ascii.eqb c LF then "" :: split_lines s'
      else match split_lines s' with
           | h :: t => String c h :: t
           | [] => [String c ""]
           end
  end.

(** [sep.join(l)] *)
Definition join (sep : string) (l : list string) : string :=
  String.concat sep l.

(** [c.lower()] for a code point below 256. *)
Definition lower_char (c : ascii) : ascii :=
  let n := nat_of_ascii c in
  if ((65 <=? n) && (n <=? 90))
     || ((192 <=? n) && (n <=? 222) && negb (n =? 215))
  then ascii_of_nat (n + 32) else c.

Fixpoint lower (s : string) : string :=
  match s with
  | "" => ""
  | String c s' => String (lower_char c) (lower s')
  end.

(** A string without a line feed. *)
Fixpoint no_lf (s : string) : bool :=
  match s with
  | "" => true
  | String c s' => negb (Ascii.eqb c LF) && no_lf s'
  end.

(** Lines none of which holds a line feed. *)
Definition all_no_lf (l : list string) : Prop :=
  Forall (fun x => no_lf x = true) l.

End Str.

(** ** The response normalizer, [_collapse_skill_lines] *)

Module Normalizer.
Import Str.

(** The test of line 107 on a trimmed line: a section header that is
    kept as a line of its own. *)
Definition is_header (stripped : string) : bool :=
  nonempty stripped
  && contains " " stripped
  && (String.length stripped <? 45)
  && negb (startswith_any ["-"; "*"; "#"] stripped).

(** Lines 112-119. *)
Definition looks_like_single_item (stripped : string) : bool :=
  nonempty stripped
  && negb (startswith "-" stripped)
  && negb (startswith "*" stripped)
  && negb (startswith "#" stripped)
  && negb (contains "," stripped)
  && (String.length stripped <? 55).

(** The two [break] tests of the inner loop, lines 125 and 127. *)
Definition inner_break (next_ln : string) : bool :=
  (negb (nonempty next_ln) || startswith "#" next_ln
   || startswith "-" next_ln || startswith "*" next_ln)
  || (contains "," next_ln || (55 <? String.length next_ln)).

(** The inner [while j < len(lines)] loop, lines 123-130, from the
    state [(j, run)] to the state in which it exits. *)
Equations? inner_loop (lines : list string) (j : nat) (run : list string)
  : nat * list string by wf (length lines - j) lt :=
  inner_loop lines j run with inspect (j <? length lines) := {
    | exist _ false _ => (j, run)
    | exist _ true Hlt =>
        let next_ln := strip (nth j lines "") in
        if inner_break next_ln then (j, run)
        else inner_loop lines (S j) (run ++ [next_ln]) }.
Proof. apply Nat.ltb_lt in Hlt. lia. Qed.

(** One pass through the body of the outer loop, lines 104-136, from
    the state [(i, out)] with [i < len(lines)] to the next state. *)
Definition outer_body (lines : list string) (i : nat) (out : list string)
  : nat * list string :=
  let line := nth i lines "" in
  let stripped := strip line in
  if is_header stripped then (S i, out ++ [line])
  else
    if looks_like_single_item stripped then
      let '(j, run) := inner_loop lines (S i) [stripped] in
      if 3 <=? length run then (j, out ++ [join ", " run])
      else (S i, out ++ [line])
    else (S i, out ++ [line]).

(** The outer [while i < len(lines)] loop, lines 103-136. *)
Equations? outer_loop (lines : list string) (i : nat) (out : list string)
  : list string by wf (length lines - i) lt :=
  outer_loop lines i out with inspect (i <? length lines) := {
    | exist _ false _ => out
    | exist _ true Hlt =>
        outer_loop lines (fst (outer_body lines i out))
                         (snd (outer_body lines i out)) }.
Proof.
  apply Nat.ltb_lt in Hlt.
  assert (Hge : forall j run, j <= fst (inner_loop lines j run)).
  { clear. intros j run. funelim (inner_loop lines j run).
    - destruct (inner_break _); simpl; lia.
    - simpl; lia. }
  unfold outer_body.
  destruct (is_header _); [cbn [fst]; lia|].
  destruct (looks_like_single_item _); [|cbn [fst]; lia].
  specialize (Hge (S i) [strip (nth i lines "")]).
  destruct (inner_loop _ _ _) as [j run]; cbn [fst] in Hge.
  destruct (3 <=? length run); cbn [fst]; lia.
Qed.

(** The pass at position [i] collects a run of three lines or more and
    merges it: the tests of lines 107, 120 and 131. *)
Definition merges_at (lines : list string) (i : nat) : bool :=
  let stripped := strip (nth i lines "") in
  negb (is_header stripped)
  && looks_like_single_item stripped
  && (3 <=? length (snd (inner_loop lines (S i) [stripped]))).

(** [scans lines i k]: the outer loop, started at position [i], makes a
    pass at position [k] or leaves the loop there. *)
Inductive scans (lines : list string) : nat -> nat -> Prop :=
| scans_here (i : nat) : scans lines i i
| scans_pass (i k : nat) :
    i < length lines ->
    scans lines (fst (outer_body lines i [])) k ->
    scans lines i k.

(** [len(text.split("\n"))] *)
Definition count_lines (text : string) : nat := length (split_lines text).

(** [_collapse_skill_lines(text)] *)
Definition _collapse_skill_lines (text : string) : string :=
  let lines := split_lines text in
  join nl (outer_loop lines 0 []).

End Normalizer.

(** ** Python values *)

Module Py.
Import Str.

#[local] Set Warnings "-register-all".

(** [str] refuses an integer of more than 4300 digits
    ([sys.int_max_str_digits]), and so does [json] decoding for an
    integer literal: the integers of the store are below [10 ^ 4300] in
    absolute value, and these are the integers of the model. *)
Definition int_limit : Z := Eval vm_compute in (10 ^ 4300)%Z.

Record py_int : Type := {
  int_value : Z;
  int_small : Z.ltb (Z.abs int_value) int_limit = true
}.

(** A value of the CV store: what [json] decoding yields, without
    floating-point numbers.  A dictionary lists its items in insertion
    order and its keys are strings. *)
Inductive value : Type :=
| VNone
| VBool (b : bool)
| VInt (n : py_int)
| VStr (s : string)
| VList (l : list value)
| VDict (d : list (string * value)).

Definition dict : Type := list (string * value).

(** The exceptions the module can raise. *)
Inductive exn : Type :=
| AttributeError
| TypeError
| KeyError (k : string)
| ValueError (msg : string)
| ExternalError (tag : string).

Inductive result (A : Type) : Type :=
| Ok (a : A)
| Err (e : exn).
Arguments Ok {A} a.
Arguments Err {A} e.

(** [bool(v)] *)
Definition truthy (v : value) : bool :=
  match v with
  | VNone => false
  | VBool b => b
  | VInt n => negb (Z.eqb (int_value n) 0)
  | VStr s => nonempty s
  | VList l => match l with [] => false | _ => true end
  | VDict d => match d with [] => false | _ => true end
  end.

(** [a or b] *)
Definition py_or (a b : value) : value := if truthy a then a else b.

(** [isinstance(v, dict)] and [isinstance(v, list)] *)
Definition is_dict (v : value) : bool :=
  match v with VDict _ => true | _ => false end.
Definition is_list (v : value) : bool :=
  match v with VList _ => true | _ => false end.

Fixpoint lookup (k : string) (d : dict) : option value :=
  match d with
  | [] => None
  | (k', v) :: d' => if String.eqb k k' then Some v else lookup k d'
  end.

(** [d.get(k, default)] on a dictionary. *)
Definition dict_get (d : dict) (k : string) (default : value) : value :=
  match lookup k d with
  | Some v => v
  | None => default
  end.

(** The same dictionary without the key [k]. *)
Definition dict_remove (k : string) (d : dict) : dict :=
  filter (fun kv => negb (String.eqb k (fst kv))) d.

(** [v.get(k, default)]: only a dictionary has the method. *)
Definition get (v : value) (k : string) (default : value) : result value :=
  match v with
  | VDict d => Ok (dict_get d k default)
  | _ => Err AttributeError
  end.

(** [v[k]] with a string key. *)
Definition subscript (v : value) (k : string) : result value :=
  match v with
  | VDict d => match lookup k d with
               | Some x => Ok x
               | None => Err (KeyError k)
               end
  | _ => Err TypeError
  end.

(** [iter(v)]: the elements a [for] loop over [v] visits. *)
Definition iterate (v : value) : result (list value) :=
  match v with
  | VList l => Ok l
  | VStr s => Ok (map (fun c => VStr (String c "")) (list_ascii_of_string s))
  | VDict d => Ok (map (fun kv => VStr (fst kv)) d)
  | _ => Err TypeError
  end.

(** [str(n)] for an integer. *)
Definition str_int (n : py_int) : string :=
  NilZero.string_of_int (Z.to_int (int_value n)).

Definition hex_digit (n : nat) : ascii :=
  if n <? 10 then ascii_of_nat (48 + n) else ascii_of_nat (87 + n).

Definition dquote : ascii := "034"%char.
Definition squote : ascii := "039"%char.
Definition backslash : ascii := "092"%char.

(** [c.isprintable()] for a code point below 256. *)
Definition isprintable (c : ascii) : bool :=
  let n := nat_of_ascii c in
  ((32 <=? n) && (n <=? 126)) || ((161 <=? n) && negb (n =? 173)).

(** The escape of one character inside [repr(s)] quoted with [q]. *)
Definition repr_char (q c : ascii) : string :=
  let n := nat_of_ascii c in
  if Ascii.eqb c q || Ascii.eqb c backslash then String backslash (String c "")
  else if n =? 9 then String backslash "t"
  else if n =? 10 then String backslash "n"
  else if n =? 13 then String backslash "r"
  else if isprintable c then String c ""
  else String backslash
         (String "x" (String (hex_digit (n / 16)) (String (hex_digit (n mod 16)) ""))).

Fixpoint repr_chars (q : ascii) (s : string) : string :=
  match s with
  | "" => ""
  | String c s' => (repr_char q c ++ repr_chars q s')%string
  end.

(** [repr(s)] for a string: single quotes, unless the string holds a
    single quote and no double quote. *)
Definition repr_str (s : string) : string :=
  let q := if contains (String squote "") s && negb (contains (String dquote "") s)
           then dquote else squote in
  String q (repr_chars q s ++ String q "")%string.

(** [repr(v)] *)
Fixpoint repr (v : value) : string :=
  match v with
  | VNone => "None"
  | VBool true => "True"
  | VBool false => "False"
  | VInt n => str_int n
  | VStr s => repr_str s
  | VList l => ("[" ++ join ", " (map repr l) ++ "]")%string
  | VDict d =>
      ("{"
       ++ join ", " (map (fun kv => repr_str (fst kv) ++ ": " ++ repr (snd kv)) d)
       ++ "}")%string
  end.

(** [str(v)], which is also what an f-string field [{v}] renders. *)
Definition str (v : value) : string :=
  match v with
  | VStr s => s
  | _ => repr v
  end.

(** [line += s] for a string [s]: concatenation on a string, [extend]
    with the characters of [s] on a list, a [TypeError] otherwise. *)
Definition iadd_str (line : value) (s : string) : result value :=
  match line with
  | VStr l => Ok (VStr (l ++ s)%string)
  | VList l =>
      Ok (VList (l ++ map (fun c => VStr (String c "")) (list_ascii_of_string s)))
  | _ => Err TypeError
  end.

End Py.

(** ** A state and exception monad

    A computation reads and updates a state of type [S] and either
    returns a value or raises; the state reached is kept in both cases,
    so that what happened before a [raise] remains visible. *)

Module Monad.
Import Py.

Definition M (S A : Type) : Type := S -> result A * S.

Definition ret {S A} (a : A) : M S A := fun st => (Ok a, st).

Definition raise {S A} (e : exn) : M S A := fun st => (Err e, st).

Definition bind {S A B} (m : M S A) (k : A -> M S B) : M S B :=
  fun st =>
    match m st with
    | (Ok a, st') => k a st'
    | (Err e, st') => (Err e, st')
    end.

(** A pure computation that may raise. *)
Definition lift {S A} (r : result A) : M S A :=
  match r with
  | Ok a => ret a
  | Err e => raise e
  end.

(** [if b: body] *)
Definition when {S} (b : bool) (body : M S unit) : M S unit :=
  if b then body else ret tt.

(** [for x in l: body(x)] *)
Fixpoint for_each {S A} (l : list A) (body : A -> M S unit) : M S unit :=
  match l with
  | [] => ret tt
  | x :: l' => bind (body x) (fun _ => for_each l' body)
  end.

Declare Scope monad_scope.
Delimit Scope monad_scope with monad.
Notation "x <- m ;; k" := (bind m (fun x => k))
  (at level 61, m at next level, right associativity) : monad_scope.
Notation "m ;; k" := (bind m (fun _ => k))
  (at level 61, right associativity) : monad_scope.

End Monad.

(** ** The context builder, [build_context] *)

Module ContextBuilder.
Import Str Py Monad.
Local Open Scope monad_scope.

(** [parts.append(s)] *)
Definition append (s : string) : M (list string) unit :=
  fun parts => (Ok tt, parts ++ [s]).

(** Lines 37-50. *)
Definition profile_block (data : dict) : M (list string) unit :=
  let profile := py_or (dict_get data "profile" VNone) (VDict []) in
  when (truthy profile)
    (append "## Profile" ;;
     name <- lift (get profile "name" (VStr "")) ;;
     append ("Name: " ++ str name)%string ;;
     jobTitle <- lift (get profile "jobTitle" (VStr "")) ;;
     append ("Job title: " ++ str jobTitle)%string ;;
     c <- lift (get profile "contact" VNone) ;;
     let contact := py_or c (VDict []) in
     when (truthy contact)
       (email <- lift (get contact "email" (VStr "")) ;;
        append ("Email: " ++ str email)%string ;;
        phone <- lift (get contact "phone" (VStr "")) ;;
        append ("Phone: " ++ str phone)%string) ;;
     l <- lift (get profile "links" VNone) ;;
     let links := py_or l (VDict []) in
     when (truthy links)
       (github <- lift (get links "github" (VStr "")) ;;
        append ("GitHub: " ++ str github)%string ;;
        linkedin <- lift (get links "linkedin" (VStr "")) ;;
        append ("LinkedIn: " ++ str linkedin)%string) ;;
     append "").

(** Lines 52-58. *)
Definition experience_block (data : dict) : M (list string) unit :=
  let experience := py_or (dict_get data "experience" VNone) (VList []) in
  when (truthy experience)
    (append "## Experience" ;;
     jobs <- lift (iterate experience) ;;
     for_each jobs (fun job =>
       role <- lift (get job "role" (VStr "")) ;;
       company <- lift (get job "company" (VStr "N/A")) ;;
       dates <- lift (get job "dates" (VStr "")) ;;
       append ("- " ++ str role ++ " at " ++ str company
               ++ " (" ++ str dates ++ ")")%string ;;
       description <- lift (get job "description" (VStr "")) ;;
       append ("  " ++ str description)%string) ;;
     append "").

(** Lines 60-66. *)
Definition projects_block (data : dict) : M (list string) unit :=
  let projects := py_or (dict_get data "projects" VNone) (VList []) in
  when (truthy projects)
    (append "## Projects" ;;
     ps <- lift (iterate projects) ;;
     for_each ps (fun p =>
       name <- lift (get p "name" (VStr "")) ;;
       url <- lift (get p "url" (VStr "")) ;;
       append ("- " ++ str name ++ " (" ++ str url ++ ")")%string ;;
       description <- lift (get p "description" (VStr "")) ;;
       append ("  " ++ str description)%string) ;;
     append "").

(** The body of the education loop, lines 72-79. *)
Definition education_entry (e : value) : M (list string) unit :=
  degree <- lift (get e "degree" VNone) ;;
  line <- (if truthy degree then ret degree
           else program <- lift (get e "program" VNone) ;;
                ret (py_or program (VStr ""))) ;;
  institution <- lift (get e "institution" VNone) ;;
  line <- (if truthy institution
           then inst <- lift (subscript e "institution") ;;
                lift (iadd_str line (" - " ++ str inst)%string)
           else ret line) ;;
  graduationYear <- lift (get e "graduationYear" VNone) ;;
  has_date <- (if truthy graduationYear then ret true
               else dates <- lift (get e "dates" VNone) ;; ret (truthy dates)) ;;
  line <- (if has_date : bool
           then year <- lift (get e "graduationYear" VNone) ;;
                shown <- (if truthy year then ret year
                          else lift (get e "dates" VNone)) ;;
                lift (iadd_str line (" (" ++ str shown ++ ")")%string)
           else ret line) ;;
  append ("- " ++ str line)%string ;;
  description <- lift (get e "description" VNone) ;;
  when (truthy description)
    (d <- lift (subscript e "description") ;;
     append ("  " ++ str d)%string).

(** Lines 68-80. *)
Definition education_block (data : dict) : M (list string) unit :=
  let education := py_or (dict_get data "education" VNone) (VList []) in
  when (truthy education)
    (append "## Education" ;;
     es <- lift (iterate education) ;;
     for_each es education_entry ;;
     append "").

(** The body of the loop over [skills.items()], lines 86-91. *)
Definition skills_entry (kv : string * value) : M (list string) unit :=
  let '(key, value) := kv in
  if String.eqb key "notes" || negb (truthy value) then ret tt
  else
    match value with
    | VList vs => append (key ++ ": " ++ join ", " (map str vs))%string
    | _ => append (key ++ ": " ++ str value)%string
    end.

(** Lines 82-93. *)
Definition skills_block (data : dict) : M (list string) unit :=
  let skills := py_or (dict_get data "skills" VNone) (VDict []) in
  match skills with
  | VDict items =>
      when (truthy skills)
        (append "## Skills" ;;
         for_each items skills_entry ;;
         when (truthy (dict_get items "notes" VNone))
           (notes <- lift (subscript skills "notes") ;;
            append ("Notes: " ++ str notes)%string))
  | _ => ret tt
  end.

(** The statements of [build_context] before its [return]. *)
Definition build_parts (data : dict) : M (list string) unit :=
  profile_block data ;;
  experience_block data ;;
  projects_block data ;;
  education_block data ;;
  skills_block data.

(** [build_context(data)] *)
Definition build_context (data : dict) : result string :=
  match build_parts data [] with
  | (Ok _, parts) => Ok (strip (join nl parts))
  | (Err e, _) => Err e
  end.

(** A computation on [parts] that only appends: what it returns and what
    it adds do not depend on the lines already there. *)
Definition appends {A} (m : M (list string) A) : Prop :=
  forall parts, m parts = (fst (m []), parts ++ snd (m [])).

(** The lines a block adds to [parts]: its section of the context. *)
Definition section (block : dict -> M (list string) unit) (data : dict)
  : list string :=
  snd (block data []).

(** The top-level fields, in the order of the code, each with the block
    that renders it. *)
Definition blocks : list (string * (dict -> M (list string) unit)) :=
  [("profile", profile_block); ("experience", experience_block);
   ("projects", projects_block); ("education", education_block);
   ("skills", skills_block)].

(** The tests of lines 38, 53, 61, 69 and 83: a field counts as present
    when its value is true, and the skills moreover when they are a
    dictionary. *)
Definition present (data : dict) (field : string) : bool :=
  let v := dict_get data field VNone in
  if String.eqb field "skills" then truthy v && is_dict v else truthy v.

(** A section is empty when the field is not present, and starts with
    its label when it is. *)
Definition labelled (here : bool) (label : string) (lines : list string) : Prop :=
  if here then exists rest, lines = label :: rest else lines = [].

End ContextBuilder.

(** ** The orchestration function, [answer_question] *)

Module Assistant.
Import Str Py Monad Normalizer ContextBuilder.
Local Open Scope monad_scope.

(** One entry of the [messages] argument of the chat completion call. *)
Record chat_message : Type := { role : string; content : string }.

(** The keyword arguments of [client.chat.completions.create]. *)
Record request : Type := {
  model : string;
  messages : list chat_message;
  max_tokens : Z;
  temperature : Q
}.

(** What the collaborator answers: [response.choices], the [message]
    attribute of a choice when it has one, and its [content]. *)
Record reply_message : Type := { reply_content : option string }.
Record choice : Type := { message : option reply_message }.
Record response : Type := { choices : list choice }.

(** A call to the external API through a client built with [call_key]. *)
Record call : Type := { call_key : string; call_request : request }.

(** [l[-n:]] for a positive [n]. *)
Definition last_n {A} (n : nat) (l : list A) : list A :=
  skipn (length l - n) l.

(** [v.lower()] and [v.strip()]: string methods. *)
Definition lower_of (v : value) : result string :=
  match v with
  | VStr s => Ok (lower s)
  | _ => Err AttributeError
  end.

Definition strip_of (v : value) : result string :=
  match v with
  | VStr s => Ok (strip s)
  | _ => Err AttributeError
  end.

(** The body of the loop over [history[-6:]], lines 155-159. *)
Definition history_entry (msg : value) : M (list string) unit :=
  r <- lift (get msg "role" VNone) ;;
  role <- lift (lower_of (py_or r (VStr "user"))) ;;
  c <- lift (get msg "content" VNone) ;;
  content <- lift (strip_of (py_or c (VStr ""))) ;;
  when (nonempty content)
    (let label := if String.eqb role "assistant" then "Assistant" else "User" in
     append (label ++ ": " ++ content ++ nl)%string).

(** Truth value of the [history] argument, a list or [None]. *)
Definition history_given (history : option (list value)) : bool :=
  match history with
  | Some (_ :: _) => true
  | _ => false
  end.

Definition history_list (history : option (list value)) : list value :=
  match history with
  | Some h => h
  | None => []
  end.

(** Lines 151-163: the content of the user message. *)
Definition user_content (context : string) (history : option (list value))
  (question : string) : result string :=
  let assemble :=
    when (history_given history)
      (append ("Recent conversation:" ++ nl)%string ;;
       for_each (last_n 6 (history_list history)) history_entry ;;
       append nl) ;;
    append ("Current question: " ++ strip question)%string in
  match assemble [("CV context:" ++ nl ++ context)%string; nl] with
  | (Ok _, parts) => Ok (join "" parts)
  | (Err e, _) => Err e
  end.

(** The error of line 144, the spec's [ConfigurationError]. *)
Definition ConfigurationError : exn :=
  ValueError "GROQ_API_KEY is not set. Add it to backend/.env".

(** The error of line 176, the spec's [EmptyResponseError]. *)
Definition EmptyResponseError : exn :=
  ValueError "Empty response from Groq".

Definition NO_CV_DATA : string := "No CV data available to answer from.".

(** [not api_key or not api_key.strip()] *)
Definition credential_blank (api_key : option string) : bool :=
  match api_key with
  | None => true
  | Some k => negb (nonempty k) || negb (nonempty (strip k))
  end.

Section AnswerQuestion.

(** The instruction text of lines 8-30. *)
Variable SYSTEM_PROMPT : string.

(** [os.environ.get], the process environment. *)
Variable environ : string -> option string.

(** The hosted chat completion endpoint, reached through a client built
    with an API key: it answers or raises. *)
Variable groq : string -> request -> result response.

(** [Groq(api_key=k).chat.completions.create(...)]: the one network call;
    the state is the list of calls made so far. *)
Definition chat_completions_create (k : string) (req : request)
  : M (list call) response :=
  fun calls => (groq k req, calls ++ [{| call_key := k; call_request := req |}]).

(** The request of lines 165-173. *)
Definition build_request (user : string) : request :=
  {| model := "llama-3.1-8b-instant";
     messages := [ {| role := "system"; content := SYSTEM_PROMPT |};
                   {| role := "user"; content := user |} ];
     max_tokens := 1024;
     temperature := 3 # 10 |}.

(** [answer_question(question, data, history)] *)
Definition answer_question (question : string) (data : dict)
  (history : option (list value)) : M (list call) string :=
  let api_key := environ "GROQ_API_KEY" in
  if credential_blank api_key then raise ConfigurationError
  else
    context <- lift (build_context data) ;;
    if negb (nonempty context) then ret NO_CV_DATA
    else
      user <- lift (user_content context history question) ;;
      response <- chat_completions_create
                    (match api_key with Some k => k | None => "" end)
                    (build_request user) ;;
      match choices response with
      | [] => raise EmptyResponseError
      | choice :: _ =>
          match message choice with
          | None => raise EmptyResponseError
          | Some m =>
              let raw := strip (match reply_content m with
                                | Some s => s
                                | None => ""
                                end) in
              ret (_collapse_skill_lines raw)
          end
      end.

End AnswerQuestion.

(** *** The conversation window as the specification words it *)

(** A conversation turn: a role and a content, each of them optional. *)
Record turn : Type := { turn_role : option string; turn_content : option string }.

(** The dictionary that carries a turn. *)
Definition turn_value (t : turn) : value :=
  VDict (match turn_role t with Some r => [("role", VStr r)] | None => [] end
         ++ match turn_content t with Some c => [("content", VStr c)] | None => [] end).

(** Equality of two strings up to letter case. *)
Definition eq_ignore_case (a b : string) : bool :=
  String.eqb (lower a) (lower b).

(** "Assistant" for the role assistant, compared without regard to case;
    "User" for every other role and for a missing one. *)
Definition turn_label (t : turn) : string :=
  match turn_role t with
  | Some r => if eq_ignore_case r "assistant" then "Assistant" else "User"
  | None => "User"
  end.

(** The content of a turn after trimming. *)
Definition turn_text (t : turn) : string :=
  strip (match turn_content t with Some c => c | None => "" end).

(** One line of the "Recent conversation:" section. *)
Definition render_turn (t : turn) : string :=
  (turn_label t ++ ": " ++ turn_text t ++ nl)%string.

(** The section body: the last six turns in order, without those whose
    content is empty after trimming. *)
Definition recent_conversation (ts : list turn) : string :=
  join "" (map render_turn
             (filter (fun t => nonempty (turn_text t)) (last_n 6 ts))).

End Assistant.

(** ** The scan of the normalizer as a function of the remaining lines *)

Module Reference.
Import Str Normalizer.

(** Both ends trimmed and not empty. *)
Definition trimmed (s : string) : Prop := s <> "" /\ strip s = s.

(** A line the inner loop takes into the run: neither [break] fires. *)
Definition collectable (l : string) : bool := negb (inner_break (strip l)).

(** The longest prefix of [l] whose elements all satisfy [p]. *)
Fixpoint take_while {A} (p : A -> bool) (l : list A) : list A :=
  match l with
  | [] => []
  | x :: l' => if p x then x :: take_while p l' else []
  end.

(** The run collected at a candidate line [x] followed by [rest]. *)
Definition run_of (x : string) (rest : list string) : list string :=
  strip x :: map strip (take_while collectable rest).

(** The condition under which [collapse_list] merges at [x]. *)
Definition merges (x : string) (rest : list string) : bool :=
  negb (is_header (strip x)) && looks_like_single_item (strip x)
  && (3 <=? length (run_of x rest)).

(** What the outer loop emits for the lines that remain. *)
Equations? collapse_list (l : list string) : list string by wf (length l) lt :=
  collapse_list [] := [];
  collapse_list (x :: rest) :=
    if negb (is_header (strip x)) && looks_like_single_item (strip x)
       && (3 <=? length (run_of x rest))
    then join ", " (run_of x rest)
         :: collapse_list (skipn (length (run_of x rest) - 1) rest)
    else x :: collapse_list rest.
Proof.
  rewrite length_skipn. cbn [length]. lia.
Qed.

(** [grouped lines out]: [out] is [lines] in the same order, where some
    groups of three or more consecutive collectable lines have each been
    replaced by one line, their trimmed members joined with a comma and
    a space. *)
Inductive grouped : list string -> list string -> Prop :=
| grouped_nil : grouped [] []
| grouped_keep (x : string) (rest out : list string) :
    grouped rest out -> grouped (x :: rest) (x :: out)
| grouped_merge (g rest out : list string) :
    3 <= length g ->
    Forall (fun l => collectable l = true) g ->
    grouped rest out ->
    grouped (g ++ rest) (join ", " (map strip g) :: out).

End Reference.

(** ** The sections of the context as plain lists of lines *)

Module Rendering.
Import Str Py.

(** [d.get(k, default)] rendered in an f-string. *)
Definition field (d : dict) (k default : string) : string :=
  str (dict_get d k (VStr default)).

(** The two lines of a job. *)
Definition job_lines (job : dict) : list string :=
  [("- " ++ field job "role" "" ++ " at " ++ field job "company" "N/A"
    ++ " (" ++ field job "dates" "" ++ ")")%string;
   ("  " ++ field job "description" "")%string].

(** The two lines of a project. *)
Definition project_lines (p : dict) : list string :=
  [("- " ++ field p "name" "" ++ " (" ++ field p "url" "" ++ ")")%string;
   ("  " ++ field p "description" "")%string].

(** A value that is text or is not given. *)
Definition text_or_none (v : value) : bool :=
  match v with
  | VNone | VStr _ => true
  | _ => false
  end.

(** A value that is a dictionary or counts as not given. *)
Definition dict_or_falsy (v : value) : bool := negb (truthy v) || is_dict v.

(** The line of an education entry and, when there is one, the line of
    its description. *)
Definition education_lines (e : dict) : list string :=
  let head := py_or (dict_get e "degree" VNone)
                (py_or (dict_get e "program" VNone) (VStr "")) in
  let institution := dict_get e "institution" VNone in
  let year := py_or (dict_get e "graduationYear" VNone)
                (dict_get e "dates" VNone) in
  let description := dict_get e "description" VNone in
  ("- " ++ str head
   ++ (if truthy institution then " - " ++ str institution else "")
   ++ (if truthy year then " (" ++ str year ++ ")" else ""))%string
  :: (if truthy description then [("  " ++ str description)%string] else []).

(** An entry of the skills that the loop renders. *)
Definition skill_shown (kv : string * value) : bool :=
  negb (String.eqb (fst kv) "notes") && truthy (snd kv).

Definition skill_line (kv : string * value) : string :=
  (fst kv ++ ": "
   ++ match snd kv with
      | VList vs => join ", " (map str vs)
      | v => str v
      end)%string.

(** The lines of the skills section for a dictionary that is not empty. *)
Definition skills_lines (items : dict) : list string :=
  "## Skills"
  :: map skill_line (filter skill_shown items)
  ++ (if truthy (dict_get items "notes" VNone)
      then [("Notes: " ++ str (dict_get items "notes" VNone))%string]
      else []).

(** The lines of the profile section. *)
Definition profile_lines (p : dict) : list string :=
  let contact := py_or (dict_get p "contact" VNone) (VDict []) in
  let links := py_or (dict_get p "links" VNone) (VDict []) in
  ["## Profile";
   ("Name: " ++ field p "name" "")%string;
   ("Job title: " ++ field p "jobTitle" "")%string]
  ++ match contact with
     | VDict c =>
         if truthy contact
         then [("Email: " ++ field c "email" "")%string;
               ("Phone: " ++ field c "phone" "")%string]
         else []
     | _ => []
     end
  ++ match links with
     | VDict l =>
         if truthy links
         then [("GitHub: " ++ field l "github" "")%string;
               ("LinkedIn: " ++ field l "linkedin" "")%string]
         else []
     | _ => []
     end
  ++ [""].

(** The shape the code relies on: the profile, its contact and its links
    are dictionaries when given; experience, projects and education are
    lists of dictionaries when given; the degree and the program of an
    education entry are text when given. *)
Definition profile_ok (v : value) : bool :=
  negb (truthy v)
  || match v with
     | VDict p => dict_or_falsy (dict_get p "contact" VNone)
                  && dict_or_falsy (dict_get p "links" VNone)
     | _ => false
     end.

Definition entries_ok (entry_ok : dict -> bool) (v : value) : bool :=
  negb (truthy v)
  || match v with
     | VList l => forallb (fun e => match e with
                                    | VDict d => entry_ok d
                                    | _ => false
                                    end) l
     | _ => false
     end.

Definition education_entry_ok (e : dict) : bool :=
  text_or_none (dict_get e "degree" VNone)
  && text_or_none (dict_get e "program" VNone).

(** A value that an f-string renders without going through a container:
    [None], a boolean, an integer or a string. *)
Definition scalar (v : value) : bool :=
  match v with
  | VList _ | VDict _ => false
  | _ => true
  end.

(** The values under the keys [keys] are scalars when given. *)
Definition scalars (d : dict) (keys : list string) : bool :=
  forallb (fun k => scalar (dict_get d k VNone)) keys.

(** A dictionary with scalars under [keys], or a value that counts as
    not given. *)
Definition leaves_ok (keys : list string) (v : value) : bool :=
  negb (truthy v)
  || match v with
     | VDict d => scalars d keys
     | _ => false
     end.

(** A value of the skills: a scalar or a list of scalars. *)
Definition skill_value_ok (v : value) : bool :=
  scalar v
  || match v with
     | VList l => forallb scalar l
     | _ => false
     end.

(** Skills whose values are all of that kind; skills that are not a
    dictionary are not rendered at all. *)
Definition skills_ok (v : value) : bool :=
  match v with
  | VDict items => forallb (fun kv => skill_value_ok (snd kv)) items
  | _ => true
  end.

Definition job_ok (job : dict) : bool :=
  scalars job ["role"; "company"; "dates"; "description"].

Definition project_ok (p : dict) : bool :=
  scalars p ["name"; "url"; "description"].

Definition education_ok (e : dict) : bool :=
  education_entry_ok e
  && scalars e ["institution"; "graduationYear"; "dates"; "description"].

(** CV data of the expected shape, with scalars for leaves. *)
Definition well_formed_cv (data : dict) : bool :=
  profile_ok (dict_get data "profile" VNone)
  && leaves_ok ["name"; "jobTitle"] (dict_get data "profile" VNone)
  && match dict_get data "profile" VNone with
     | VDict p => leaves_ok ["email"; "phone"] (dict_get p "contact" VNone)
                  && leaves_ok ["github"; "linkedin"] (dict_get p "links" VNone)
     | _ => true
     end
  && entries_ok job_ok (dict_get data "experience" VNone)
  && entries_ok project_ok (dict_get data "projects" VNone)
  && entries_ok education_ok (dict_get data "education" VNone)
  && skills_ok (dict_get data "skills" VNone).

(** Lines of which the first, when there is one, starts with a hash. *)
Definition hash_first (l : list string) : Prop :=
  forall x, hd_error l = Some x -> exists t, x = String "#" t.

End Rendering.

(** ** Sample inputs *)

Module Examples.
Import Str Py Assistant.

(** Two years, as integers of the store. *)
Definition year_2023 : py_int := {| int_value := 2023; int_small := eq_refl |}.
Definition year_2024 : py_int := {| int_value := 2024; int_small := eq_refl |}.

(** Three skills, one per line. *)
Definition skills3 : list string := ["Python"; "C++"; "Rust"].

(** A header, three skills, an empty line and two more skills. *)
Definition headed_skills : list string :=
  ["Technical Skills"; "Python"; "C++"; "Rust"; ""; "Git"; "Linux"].

(** A line of 55 characters. *)
Definition line55 : string :=
  "xxxxxxxxxxxxxxxxxxxxxxxxxxxxxxxxxxxxxxxxxxxxxxxxxxxxxxx".

(** CV data with a profile, one job, skills, and projects left empty. *)
Definition sample_cv : dict :=
  [("profile", VDict [("name", VStr "Mayar Waleed Nawas");
                      ("jobTitle", VStr "Full-stack developer");
                      ("links", VDict [("github", VStr "https://github.com/myarnwas")])]);
   ("projects", VList []);
   ("experience", VList [VDict [("role", VStr "Developer");
                                ("dates", VStr "2023 - now");
                                ("description", VStr "Builds web products.")]]);
   ("skills", VDict [("Frontend", VList [VStr "React"; VStr "Next.js"; VStr "TypeScript"]);
                     ("notes", VStr "n/a")])].

(** CV data whose only fields are false or of the wrong kind. *)
Definition hollow_cv : dict :=
  [("profile", VDict []); ("skills", VList [VStr "React"])].

(** Ten turns of conversation, numbered in their content. *)
Definition ten_turns : list turn :=
  [ {| turn_role := Some "user"; turn_content := Some "q1" |};
    {| turn_role := Some "assistant"; turn_content := Some "a2" |};
    {| turn_role := Some "user"; turn_content := Some "q3" |};
    {| turn_role := Some "assistant"; turn_content := Some "a4" |};
    {| turn_role := Some "user"; turn_content := Some " q5 " |};
    {| turn_role := Some "Assistant"; turn_content := Some "a6" |};
    {| turn_role := None; turn_content := Some "q7" |};
    {| turn_role := Some "ASSISTANT"; turn_content := Some "   " |};
    {| turn_role := Some "system"; turn_content := Some "q9" |};
    {| turn_role := Some "assistant"; turn_content := None |} ].

(** Environments without a credential, with a blank one and with one. *)
Definition env_unset : string -> option string := fun _ => None.
Definition env_blank : string -> option string :=
  fun name => if String.eqb name "GROQ_API_KEY" then Some "   " else None.
Definition env_key : string -> option string :=
  fun name => if String.eqb name "GROQ_API_KEY" then Some "gsk_test" else None.

(** An endpoint that is down. *)
Definition groq_down : string -> request -> result response :=
  fun _ _ => Err (ExternalError "unreachable").

(** An endpoint that answers with two choices, with a message that has
    no content, and with no choice at all. *)
Definition reply (text : option string) : choice :=
  {| message := Some {| reply_content := text |} |}.
Definition groq_skills : string -> request -> result response :=
  fun _ _ => Ok {| choices := [reply (Some (" Python" ++ nl ++ "C++" ++ nl ++ "Rust ")%string);
                               reply (Some "second")] |}.
Definition groq_silent : string -> request -> result response :=
  fun _ _ => Ok {| choices := [reply None] |}.
Definition groq_no_choice : string -> request -> result response :=
  fun _ _ => Ok {| choices := [] |}.

End Examples.

(** * Properties *)

(** ** Lines of a text *)

Module StrFacts.
Import Str.

Lemma append_nil_r (s : string) : (s ++ "")%string = s.
Proof. induction s as [|c s IH]; simpl; [reflexivity|]. f_equal. exact IH. Qed.

Lemma append_assoc (a b c : string) :
  ((a ++ b) ++ c)%string = (a ++ (b ++ c))%string.
Proof. induction a as [|x a IH]; simpl; [reflexivity|]. f_equal. exact IH. Qed.

Lemma split_lines_not_nil (s : string) : split_lines s <> [].
Proof.
  induction s as [|c s IH]; simpl; [discriminate|].
  destruct (Ascii.eqb c LF); [discriminate|].
  destruct (split_lines s); discriminate.
Qed.

Lemma split_lines_length_pos (s : string) : 1 <= length (split_lines s).
Proof.
  pose proof (split_lines_not_nil s) as H.
  destruct (split_lines s); simpl; [congruence|lia].
Qed.

Lemma split_lines_no_lf (s : string) :
  Forall (fun l => no_lf l = true) (split_lines s).
Proof.
  induction s as [|c s IH]; simpl.
  - repeat constructor.
  - destruct (Ascii.eqb c LF) eqn:Hc.
    + constructor; [reflexivity|exact IH].
    + destruct (split_lines s) as [|h t].
      * repeat constructor. simpl. rewrite Hc. reflexivity.
      * inversion IH; subst. constructor; [|assumption].
        simpl. rewrite Hc. simpl. assumption.
Qed.

(** Splitting into lines and joining them again gives the text back. *)
Lemma join_split_lines (s : string) : join nl (split_lines s) = s.
Proof.
  unfold join. induction s as [|c s IH]; simpl; [reflexivity|].
  destruct (Ascii.eqb c LF) eqn:Hc.
  - apply Ascii.eqb_eq in Hc; subst c.
    pose proof (split_lines_not_nil s) as Hn.
    destruct (split_lines s) as [|h t]; [congruence|].
    simpl in *. rewrite IH. reflexivity.
  - pose proof (split_lines_not_nil s) as Hn.
    destruct (split_lines s) as [|h t]; [congruence|].
    destruct t; simpl in *; rewrite <- IH; reflexivity.
Qed.

Lemma split_lines_app_no_lf (a b : string) :
  no_lf a = true ->
  split_lines (a ++ String LF b) = a :: split_lines b.
Proof.
  induction a as [|c a IH]; simpl; intros H.
  - reflexivity.
  - apply andb_true_iff in H as [Hc Ha].
    apply negb_true_iff in Hc. rewrite Hc, (IH Ha). reflexivity.
Qed.

Lemma split_lines_single (a : string) : no_lf a = true -> split_lines a = [a].
Proof.
  induction a as [|c a IH]; simpl; intros H; [reflexivity|].
  apply andb_true_iff in H as [Hc Ha].
  apply negb_true_iff in Hc. rewrite Hc, (IH Ha). reflexivity.
Qed.

(** Joining lines that hold no line feed and splitting again gives the
    lines back. *)
Lemma split_lines_join (l : list string) :
  l <> [] -> Forall (fun x => no_lf x = true) l ->
  split_lines (join nl l) = l.
Proof.
  unfold join. induction l as [|a l IH]; intros Hn Hall; [congruence|].
  inversion Hall as [|? ? Ha Hl]; subst.
  destruct l as [|b l].
  - simpl. apply split_lines_single; assumption.
  - change (String.concat nl (a :: b :: l))
      with (a ++ String LF (String.concat nl (b :: l)))%string.
    rewrite split_lines_app_no_lf by assumption.
    rewrite IH; [reflexivity|discriminate|assumption].
Qed.

Lemma no_lf_append (a b : string) :
  no_lf (a ++ b) = no_lf a && no_lf b.
Proof.
  induction a as [|c a IH]; simpl; [reflexivity|].
  rewrite IH. apply andb_assoc.
Qed.

Lemma no_lf_lstrip (s : string) : no_lf s = true -> no_lf (lstrip s) = true.
Proof.
  induction s as [|c s IH]; simpl; intros H; [reflexivity|].
  destruct (isspace c); [|exact H].
  apply andb_true_iff in H as [_ H]. auto.
Qed.

Lemma no_lf_rstrip (s : string) : no_lf s = true -> no_lf (rstrip s) = true.
Proof.
  induction s as [|c s IH]; simpl; intros H; [reflexivity|].
  apply andb_true_iff in H as [Hc H]. specialize (IH H).
  destruct (rstrip s) as [|c' r].
  - destruct (isspace c); simpl; [reflexivity|]. rewrite Hc. reflexivity.
  - simpl in *. rewrite Hc. exact IH.
Qed.

Lemma no_lf_strip (s : string) : no_lf s = true -> no_lf (strip s) = true.
Proof. intros H. apply no_lf_rstrip, no_lf_lstrip, H. Qed.

Lemma no_lf_join (sep : string) (l : list string) :
  no_lf sep = true -> Forall (fun x => no_lf x = true) l ->
  no_lf (join sep l) = true.
Proof.
  intros Hs. unfold join. induction l as [|a l IH]; intros Hall; [reflexivity|].
  inversion Hall as [|? ? Ha Hl]; subst.
  destruct l as [|b l]; [exact Ha|].
  change (String.concat sep (a :: b :: l))
    with (a ++ (sep ++ String.concat sep (b :: l)))%string.
  rewrite !no_lf_append, Ha, Hs. simpl. apply IH. exact Hl.
Qed.

End StrFacts.

(** ** The response normalizer *)

Module NormalizerFacts.
Import Str Normalizer Reference StrFacts Examples.

Lemma inner_loop_eq (lines : list string) (j : nat) (run : list string) :
  inner_loop lines j run =
  if j <? length lines then
    if inner_break (strip (nth j lines "")) then (j, run)
    else inner_loop lines (S j) (run ++ [strip (nth j lines "")])
  else (j, run).
Proof.
  funelim (inner_loop lines j run);
    match goal with E : (_ <? _) = _ |- _ => rewrite E end; reflexivity.
Qed.

Lemma outer_loop_eq (lines : list string) (i : nat) (out : list string) :
  outer_loop lines i out =
  if i <? length lines then
    outer_loop lines (fst (outer_body lines i out)) (snd (outer_body lines i out))
  else out.
Proof.
  funelim (outer_loop lines i out);
    match goal with E : (_ <? _) = _ |- _ => rewrite E end; reflexivity.
Qed.

Lemma skipn_nth_cons (lines : list string) (j : nat) :
  j < length lines -> skipn j lines = nth j lines "" :: skipn (S j) lines.
Proof.
  revert j. induction lines as [|a l IH]; intros j H; simpl in H; [lia|].
  destruct j as [|j]; [reflexivity|].
  simpl. apply IH. lia.
Qed.

(** What the inner loop does: it stops at some [j'] with [j <= j'], and
    the run has grown by the trimmed lines from [j] up to [j']. *)
Lemma inner_loop_spec (lines : list string) :
  forall (n j : nat) (run : list string),
    n = length lines - j ->
    let r := inner_loop lines j run in
    j <= fst r
    /\ (j <= length lines -> fst r <= length lines)
    /\ snd r = run ++ map strip (firstn (fst r - j) (skipn j lines)).
Proof.
  induction n as [|n IH]; intros j run Hn r; subst r;
    rewrite inner_loop_eq.
  - destruct (j <? length lines) eqn:E.
    + apply Nat.ltb_lt in E. lia.
    + simpl. rewrite Nat.sub_diag. simpl. rewrite app_nil_r. auto.
  - destruct (j <? length lines) eqn:E.
    2:{ apply Nat.ltb_ge in E. lia. }
    apply Nat.ltb_lt in E.
    destruct (inner_break _).
    + simpl. rewrite Nat.sub_diag. simpl. rewrite app_nil_r.
      repeat split; lia.
    + destruct (IH (S j) (run ++ [strip (nth j lines "")])) as (H1 & H2 & H3);
        [lia|].
      set (r := inner_loop lines (S j) (run ++ [strip (nth j lines "")])) in *.
      repeat split; [lia|intros; apply H2; lia|].
      rewrite H3, <- app_assoc. f_equal.
      rewrite (skipn_nth_cons lines j E).
      replace (fst r - j) with (S (fst r - S j)) by lia.
      reflexivity.
Qed.

Lemma inner_loop_ge lines j run : j <= fst (inner_loop lines j run).
Proof. apply (inner_loop_spec lines _ j run eq_refl). Qed.

Lemma inner_loop_le lines j run :
  j <= length lines -> fst (inner_loop lines j run) <= length lines.
Proof. apply (inner_loop_spec lines _ j run eq_refl). Qed.

Lemma inner_loop_run lines j run :
  snd (inner_loop lines j run)
  = run ++ map strip (firstn (fst (inner_loop lines j run) - j) (skipn j lines)).
Proof. apply (inner_loop_spec lines _ j run eq_refl). Qed.

Lemma inner_loop_length lines j run :
  j <= length lines ->
  fst (inner_loop lines j run) + length run
  = j + length (snd (inner_loop lines j run)).
Proof.
  intros Hj.
  pose proof (inner_loop_ge lines j run) as Hge.
  pose proof (inner_loop_le lines j run Hj) as Hle.
  rewrite (inner_loop_run lines j run).
  rewrite length_app, length_map, length_firstn, length_skipn. lia.
Qed.

(** The pass at [i], told by [merges_at]. *)
Lemma outer_body_merge lines i out :
  merges_at lines i = true ->
  outer_body lines i out
  = (fst (inner_loop lines (S i) [strip (nth i lines "")]),
     out ++ [join ", " (snd (inner_loop lines (S i) [strip (nth i lines "")]))]).
Proof.
  unfold merges_at, outer_body. cbv zeta.
  intros H. apply andb_true_iff in H as [H H3].
  apply andb_true_iff in H as [Hh Hs]. apply negb_true_iff in Hh.
  rewrite Hh, Hs.
  destruct (inner_loop _ _ _) as [j run]; simpl in H3 |- *.
  rewrite H3. reflexivity.
Qed.

Lemma outer_body_keep lines i out :
  merges_at lines i = false ->
  outer_body lines i out = (S i, out ++ [nth i lines ""]).
Proof.
  unfold merges_at, outer_body. cbv zeta. intros H.
  destruct (is_header _); [reflexivity|].
  destruct (looks_like_single_item _); [|reflexivity].
  destruct (inner_loop _ _ _) as [j run]; simpl in H |- *.
  rewrite H. reflexivity.
Qed.

Lemma scans_inv lines i k :
  scans lines i k ->
  k = i \/ (i < length lines /\ scans lines (fst (outer_body lines i [])) k).
Proof. intros H. inversion H; subst; auto. Qed.

(** The number of lines the outer loop adds to [out] from position [i]
    on: at most one per remaining line, and exactly that when no pass
    merges. *)
Lemma outer_loop_count (lines : list string) :
  forall (n i : nat) (out : list string),
    length lines - i = n ->
    length out + (if i <? length lines then 1 else 0)
      <= length (outer_loop lines i out)
    /\ length (outer_loop lines i out) <= length out + (length lines - i)
    /\ (length (outer_loop lines i out) = length out + (length lines - i)
        <-> forall k, scans lines i k -> k < length lines ->
                      merges_at lines k = false).
Proof.
  induction n as [n IH] using lt_wf_ind. intros i out Hn.
  rewrite outer_loop_eq. destruct (i <? length lines) eqn:E.
  - apply Nat.ltb_lt in E.
    destruct (merges_at lines i) eqn:Hm.
    + rewrite (outer_body_merge lines i out Hm). cbn [fst snd].
      pose proof (inner_loop_ge lines (S i) [strip (nth i lines "")]) as Hge.
      pose proof (inner_loop_le lines (S i) [strip (nth i lines "")] E) as Hle.
      pose proof (inner_loop_length lines (S i) [strip (nth i lines "")] E) as Hlen.
      assert (H3 : 3 <= length (snd (inner_loop lines (S i) [strip (nth i lines "")]))).
      { unfold merges_at in Hm. cbv zeta in Hm.
        apply andb_true_iff in Hm as [_ Hm]. apply Nat.leb_le in Hm. exact Hm. }
      set (j := fst (inner_loop lines (S i) [strip (nth i lines "")])) in *.
      set (run := snd (inner_loop lines (S i) [strip (nth i lines "")])) in *.
      simpl in Hlen.
      destruct (IH (length lines - j) ltac:(lia) j (out ++ [join ", " run]) eq_refl)
        as (Hlo & Hup & _).
      rewrite length_app in Hlo, Hup. simpl in Hlo, Hup.
      repeat split; try lia.
      intros Hall. specialize (Hall i (scans_here lines i) E). congruence.
    + rewrite (outer_body_keep lines i out Hm). cbn [fst snd].
      destruct (IH (length lines - S i) ltac:(lia) (S i) (out ++ [nth i lines ""]) eq_refl)
        as (Hlo & Hup & Hiff).
      rewrite length_app in Hlo, Hup, Hiff. simpl in Hlo, Hup, Hiff.
      repeat split; try lia.
      * intros Heq k Hk Hlt.
        apply scans_inv in Hk as [->|[_ Hk]]; [exact Hm|].
        rewrite (outer_body_keep lines i [] Hm) in Hk. cbn [fst] in Hk.
        apply Hiff; [lia|exact Hk|exact Hlt].
      * intros Hall.
        assert (Hs : length (outer_loop lines (S i) (out ++ [nth i lines ""]))
                     = length out + 1 + (length lines - S i)).
        { apply Hiff. intros k Hk Hlt. apply Hall; [|exact Hlt].
          apply scans_pass; [exact E|].
          rewrite (outer_body_keep lines i [] Hm). exact Hk. }
        lia.
  - apply Nat.ltb_ge in E. repeat split; try lia.
    intros _ k Hk Hlt. apply scans_inv in Hk as [->|[Hi _]]; lia.
Qed.

Lemma all_no_lf_nth lines i : all_no_lf lines -> no_lf (nth i lines "") = true.
Proof.
  intros H. destruct (Nat.lt_ge_cases i (length lines)) as [Hi|Hi].
  - apply (proj1 (Forall_nth _ lines) H). exact Hi.
  - rewrite nth_overflow by exact Hi. reflexivity.
Qed.

Lemma inner_loop_no_lf lines j run :
  all_no_lf lines -> all_no_lf run -> all_no_lf (snd (inner_loop lines j run)).
Proof.
  intros Hl Hr. rewrite inner_loop_run. apply Forall_app. split; [exact Hr|].
  apply Forall_forall. intros x Hx.
  apply in_map_iff in Hx as (y & <- & Hy).
  apply no_lf_strip.
  rewrite <- (firstn_skipn j lines) in Hl. apply Forall_app in Hl as [_ Hl].
  rewrite <- (firstn_skipn (fst (inner_loop lines j run) - j) (skipn j lines)) in Hl.
  apply Forall_app in Hl as [Hl _].
  apply (proj1 (Forall_forall _ _) Hl). exact Hy.
Qed.

(** Every line the outer loop emits is free of line feeds when the input
    lines are. *)
Lemma outer_loop_no_lf (lines : list string) :
  all_no_lf lines ->
  forall (n i : nat) (out : list string),
    length lines - i = n -> all_no_lf out -> all_no_lf (outer_loop lines i out).
Proof.
  intros Hl. induction n as [n IH] using lt_wf_ind. intros i out Hn Hout.
  rewrite outer_loop_eq. destruct (i <? length lines) eqn:E; [|exact Hout].
  apply Nat.ltb_lt in E.
  destruct (merges_at lines i) eqn:Hm.
  - rewrite (outer_body_merge lines i out Hm). cbn [fst snd].
    pose proof (inner_loop_ge lines (S i) [strip (nth i lines "")]) as Hge.
    apply (IH (length lines - fst (inner_loop lines (S i) [strip (nth i lines "")])));
      [lia|reflexivity|].
    apply Forall_app. split; [exact Hout|]. constructor; [|constructor].
    apply no_lf_join; [reflexivity|].
    apply inner_loop_no_lf; [exact Hl|].
    constructor; [|constructor]. apply no_lf_strip, all_no_lf_nth, Hl.
  - rewrite (outer_body_keep lines i out Hm). cbn [fst snd].
    apply (IH (length lines - S i)); [lia|reflexivity|].
    apply Forall_app. split; [exact Hout|]. constructor; [|constructor].
    apply all_no_lf_nth, Hl.
Qed.

(** A pass that merges consumes at least three lines. *)
Lemma merges_at_room lines i :
  i < length lines -> merges_at lines i = true -> i + 3 <= length lines.
Proof.
  intros Hi Hm. unfold merges_at in Hm. cbv zeta in Hm.
  apply andb_true_iff in Hm as [_ Hm]. apply Nat.leb_le in Hm.
  pose proof (inner_loop_le lines (S i) [strip (nth i lines "")] Hi) as Hle.
  pose proof (inner_loop_length lines (S i) [strip (nth i lines "")] Hi) as Hlen.
  simpl in Hlen. lia.
Qed.

(** Without a merging pass the loop copies the remaining lines. *)
Lemma outer_loop_no_merge (lines : list string) :
  forall (n i : nat) (out : list string),
    length lines - i = n ->
    (forall k, i <= k -> k < length lines -> merges_at lines k = false) ->
    outer_loop lines i out = out ++ skipn i lines.
Proof.
  induction n as [n IH] using lt_wf_ind. intros i out Hn Hall.
  rewrite outer_loop_eq. destruct (i <? length lines) eqn:E.
  - apply Nat.ltb_lt in E.
    rewrite (outer_body_keep lines i out (Hall i (Nat.le_refl i) E)). cbn [fst snd].
    rewrite (IH (length lines - S i)); [|lia|reflexivity|].
    + rewrite (skipn_nth_cons lines i E), <- app_assoc. reflexivity.
    + intros k Hk. apply Hall. lia.
  - apply Nat.ltb_ge in E. rewrite skipn_all2 by exact E.
    rewrite app_nil_r. reflexivity.
Qed.

(** A header line met by the scan is emitted as a line of its own. *)
Lemma header_pass lines i out :
  is_header (strip (nth i lines "")) = true ->
  outer_body lines i out = (S i, out ++ [nth i lines ""]).
Proof. intros H. unfold outer_body. cbv zeta. rewrite H. reflexivity. Qed.

(** The output has as many lines as the outer loop emits. *)
Lemma count_lines_collapse (text : string) :
  count_lines (_collapse_skill_lines text)
  = length (outer_loop (split_lines text) 0 []).
Proof.
  unfold count_lines, _collapse_skill_lines. cbv zeta.
  rewrite split_lines_join; [reflexivity| |].
  - pose proof (split_lines_length_pos text) as Hpos.
    destruct (outer_loop_count (split_lines text) _ 0 [] eq_refl) as (Hlo & _).
    destruct (0 <? length (split_lines text)) eqn:E.
    + intros Hnil. rewrite Hnil in Hlo. simpl in Hlo. lia.
    + apply Nat.ltb_ge in E. lia.
  - apply (outer_loop_no_lf _ (split_lines_no_lf text) _ 0 [] eq_refl).
    constructor.
Qed.

(** C9: the output of the response normalizer never has more lines than
    its input, and it has exactly as many when, and only when, no pass
    of the scan collects a run of three lines or more. *)
Theorem collapse_line_count (text : string) :
  count_lines (_collapse_skill_lines text) <= count_lines text
  /\ (count_lines (_collapse_skill_lines text) = count_lines text
      <-> forall k, scans (split_lines text) 0 k ->
                    k < length (split_lines text) ->
                    merges_at (split_lines text) k = false).
Proof.
  rewrite count_lines_collapse. unfold count_lines.
  destruct (outer_loop_count (split_lines text) _ 0 [] eq_refl) as (_ & Hup & Hiff).
  simpl in Hup, Hiff. rewrite Nat.sub_0_r in Hup, Hiff.
  split; [exact Hup|exact Hiff].
Qed.

Lemma collapse_line_count_witness :
  count_lines (_collapse_skill_lines (join nl skills3))
  <= count_lines (join nl skills3).
Proof. exact (proj1 (collapse_line_count (join nl skills3))). Defined.

Lemma take_while_all {A} (p : A -> bool) (l : list A) :
  Forall (fun x => p x = true) (take_while p l).
Proof.
  induction l as [|x l IH]; simpl; [constructor|].
  destruct (p x) eqn:E; constructor; assumption.
Qed.

Lemma take_while_skipn {A} (p : A -> bool) (l : list A) :
  take_while p l ++ skipn (length (take_while p l)) l = l.
Proof.
  induction l as [|x l IH]; simpl; [reflexivity|].
  destruct (p x); simpl; [rewrite IH|]; reflexivity.
Qed.

Lemma take_while_id {A} (p : A -> bool) (l : list A) :
  Forall (fun x => p x = true) l -> take_while p l = l.
Proof.
  induction 1 as [|x l Hx _ IH]; simpl; [reflexivity|].
  rewrite Hx, IH. reflexivity.
Qed.

Lemma inner_loop_prefix (lines : list string) (j : nat) (run : list string) :
  inner_loop lines j run
  = (j + length (take_while collectable (skipn j lines)),
     run ++ map strip (take_while collectable (skipn j lines))).
Proof.
  remember (length lines - j) as n eqn:Hn.
  revert j run Hn. induction n as [n IH] using lt_wf_ind. intros j run Hn.
  rewrite inner_loop_eq. destruct (j <? length lines) eqn:E.
  - apply Nat.ltb_lt in E. rewrite (skipn_nth_cons lines j E).
    cbn [take_while]. unfold collectable at 1 3.
    destruct (inner_break (strip (nth j lines ""))); cbn [negb].
    + simpl. rewrite Nat.add_0_r, app_nil_r. reflexivity.
    + rewrite (IH (length lines - S j)) by lia.
      cbn [length map]. rewrite <- app_assoc. f_equal. lia.
  - apply Nat.ltb_ge in E. rewrite (skipn_all2 lines E). simpl.
    rewrite Nat.add_0_r, app_nil_r. reflexivity.
Qed.

(** The test for a merging pass, on the line and those after it. *)
Lemma merges_at_run_of (lines : list string) (i : nat) :
  merges_at lines i
  = negb (is_header (strip (nth i lines "")))
    && looks_like_single_item (strip (nth i lines ""))
    && (3 <=? length (run_of (nth i lines "") (skipn (S i) lines))).
Proof.
  unfold merges_at. cbv zeta. rewrite inner_loop_prefix. reflexivity.
Qed.

(** What the loop has emitted is a prefix of what it returns. *)
Lemma outer_loop_app (lines : list string) :
  forall (n i : nat) (out : list string),
    length lines - i = n ->
    outer_loop lines i out = out ++ outer_loop lines i [].
Proof.
  induction n as [n IH] using lt_wf_ind. intros i out Hn.
  rewrite (outer_loop_eq lines i out), (outer_loop_eq lines i []).
  destruct (i <? length lines) eqn:E; [|rewrite app_nil_r; reflexivity].
  apply Nat.ltb_lt in E.
  destruct (merges_at lines i) eqn:Hm.
  - rewrite !(outer_body_merge lines i _ Hm). cbn [fst snd app].
    pose proof (inner_loop_ge lines (S i) [strip (nth i lines "")]) as Hge.
    set (j := fst (inner_loop lines (S i) [strip (nth i lines "")])) in *.
    rewrite (IH (length lines - j) ltac:(lia) j (out ++ _) eq_refl).
    rewrite (IH (length lines - j) ltac:(lia) j [_] eq_refl).
    rewrite <- app_assoc. reflexivity.
  - rewrite !(outer_body_keep lines i _ Hm). cbn [fst snd app].
    rewrite (IH (length lines - S i) ltac:(lia) (S i) (out ++ _) eq_refl).
    rewrite (IH (length lines - S i) ltac:(lia) (S i) [_] eq_refl).
    rewrite <- app_assoc. reflexivity.
Qed.

(** The position of the next pass does not depend on what was emitted. *)
Lemma outer_body_next (lines : list string) (i : nat) (out : list string) :
  fst (outer_body lines i out) = fst (outer_body lines i []).
Proof.
  destruct (merges_at lines i) eqn:Hm.
  - rewrite !(outer_body_merge lines i _ Hm). reflexivity.
  - rewrite !(outer_body_keep lines i _ Hm). reflexivity.
Qed.

(** A position the scan makes a pass at is a state of the loop. *)
Lemma scans_state (lines : list string) (i0 i : nat) :
  scans lines i0 i ->
  forall out0, exists out, outer_loop lines i0 out0 = outer_loop lines i out.
Proof.
  induction 1 as [i|i0 i Hlt _ IH]; intros out0; [eauto|].
  rewrite outer_loop_eq, (proj2 (Nat.ltb_lt _ _) Hlt), outer_body_next.
  apply IH.
Qed.

(** The lines of the returned text are what the outer loop emits. *)
Lemma split_lines_collapse_loop (text : string) :
  split_lines (_collapse_skill_lines text) = outer_loop (split_lines text) 0 [].
Proof.
  unfold _collapse_skill_lines. cbv zeta. apply split_lines_join.
  - pose proof (split_lines_length_pos text) as Hpos.
    destruct (outer_loop_count (split_lines text) _ 0 [] eq_refl) as (Hlo & _).
    destruct (0 <? length (split_lines text)) eqn:E.
    + intros Hnil. rewrite Hnil in Hlo. simpl in Hlo. lia.
    + apply Nat.ltb_ge in E. lia.
  - apply (outer_loop_no_lf _ (split_lines_no_lf text) _ 0 [] eq_refl).
    constructor.
Qed.

(** After a run of exactly two lines, the second line is no start of a
    merge. *)
Lemma second_of_two_kept (lines : list string) (i : nat) :
  length (take_while collectable (skipn (S i) lines)) = 1 ->
  S i < length lines /\ merges_at lines (S i) = false.
Proof.
  intros H1.
  assert (Hlt : S i < length lines).
  { destruct (Nat.lt_ge_cases (S i) (length lines)) as [Hlt|Hge]; [exact Hlt|].
    rewrite (skipn_all2 lines Hge) in H1. discriminate H1. }
  split; [exact Hlt|].
  rewrite (skipn_nth_cons lines (S i) Hlt) in H1. cbn [take_while] in H1.
  destruct (collectable (nth (S i) lines "")); [|discriminate H1].
  cbn [length] in H1.
  rewrite merges_at_run_of. unfold run_of. cbn [length]. rewrite length_map.
  replace (length (take_while collectable (skipn (S (S i)) lines))) with 0 by lia.
  rewrite andb_false_r. reflexivity.
Qed.

(** The pass at a candidate line. *)
Lemma candidate_pass (lines : list string) (i : nat) (out : list string)
  (j : nat) (run : list string) :
  i < length lines ->
  is_header (strip (nth i lines "")) = false ->
  looks_like_single_item (strip (nth i lines "")) = true ->
  inner_loop lines (S i) [strip (nth i lines "")] = (j, run) ->
  (3 <= length run ->
     outer_body lines i out = (j, out ++ [join ", " run])
     /\ j = i + length run
     /\ run = map strip (firstn (length run) (skipn i lines))
     /\ outer_loop lines i out
        = outer_loop lines (i + length run) (out ++ [join ", " run]))
  /\ (length run < 3 ->
        outer_body lines i out = (S i, out ++ [nth i lines ""])
        /\ outer_loop lines i out
           = outer_loop lines (S i) (out ++ [nth i lines ""])).
Proof.
  intros Hi Hh Hs Hrun.
  pose proof (inner_loop_length lines (S i) [strip (nth i lines "")] Hi) as Hlen.
  pose proof (inner_loop_run lines (S i) [strip (nth i lines "")]) as Hr.
  rewrite Hrun in Hlen, Hr. cbn [fst snd] in Hlen, Hr. simpl in Hlen.
  assert (Hbody : forall o, outer_body lines i o
                  = if 3 <=? length run then (j, o ++ [join ", " run])
                    else (S i, o ++ [nth i lines ""])).
  { intros o. unfold outer_body. cbv zeta. rewrite Hh, Hs, Hrun. reflexivity. }
  assert (Hj : j = i + length run) by lia.
  split; intros H3.
  - assert (Hb3 := proj2 (Nat.leb_le _ _) H3).
    rewrite (outer_loop_eq lines i out), Hbody, Hb3.
    rewrite (proj2 (Nat.ltb_lt _ _) Hi). cbn [fst snd].
    repeat split; [exact Hj| |rewrite <- Hj; reflexivity].
    rewrite (skipn_nth_cons lines i Hi).
    replace (length run) with (S (j - S i)) by lia.
    exact Hr.
  - apply Nat.leb_gt in H3.
    rewrite (outer_loop_eq lines i out), Hbody, H3.
    rewrite (proj2 (Nat.ltb_lt _ _) Hi). cbn [fst snd].
    split; reflexivity.
Qed.

(** C5: at a candidate line, a collected run of at least three lines is
    emitted as one line, its members joined with a comma and a space,
    and the scan goes on after the last line of the run; a shorter run
    leaves the candidate line as it is and the scan goes on at the next
    line.  A text of fewer than three lines is therefore unchanged.
    In the returned text: when the scan makes a pass at a candidate line
    [i], the text returned is made of the lines emitted before that
    pass, then of the joined run as one line followed by what the scan
    emits from the line after the run on, when the run has three lines
    or more; of the candidate line as it is followed by what the scan
    emits from the next line on, when the run is shorter; and of the two
    lines of the run, each as it is and on a line of its own, when the
    run has exactly two lines. *)
Theorem run_threshold :
  (forall (lines : list string) (i : nat) (out : list string)
          (j : nat) (run : list string),
      i < length lines ->
      is_header (strip (nth i lines "")) = false ->
      looks_like_single_item (strip (nth i lines "")) = true ->
      inner_loop lines (S i) [strip (nth i lines "")] = (j, run) ->
      (3 <= length run ->
         outer_body lines i out = (j, out ++ [join ", " run])
         /\ j = i + length run
         /\ run = map strip (firstn (length run) (skipn i lines))
         /\ outer_loop lines i out
            = outer_loop lines (i + length run) (out ++ [join ", " run]))
      /\ (length run < 3 ->
            outer_body lines i out = (S i, out ++ [nth i lines ""])
            /\ outer_loop lines i out
               = outer_loop lines (S i) (out ++ [nth i lines ""])))
  /\ (forall text : string,
        count_lines text < 3 -> _collapse_skill_lines text = text)
  /\ (forall (text : string) (lines : list string) (i j : nat)
             (run : list string),
        lines = split_lines text ->
        scans lines 0 i ->
        i < length lines ->
        is_header (strip (nth i lines "")) = false ->
        looks_like_single_item (strip (nth i lines "")) = true ->
        inner_loop lines (S i) [strip (nth i lines "")] = (j, run) ->
        exists before : list string,
          outer_loop lines 0 [] = before ++ outer_loop lines i []
          /\ (3 <= length run ->
                _collapse_skill_lines text
                = join nl (before ++ join ", " run
                                  :: outer_loop lines (i + length run) []))
          /\ (length run < 3 ->
                _collapse_skill_lines text
                = join nl (before ++ nth i lines ""
                                  :: outer_loop lines (S i) []))
          /\ (length run = 2 ->
                _collapse_skill_lines text
                = join nl (before ++ nth i lines "" :: nth (S i) lines ""
                                  :: outer_loop lines (S (S i)) []))).
Proof.
  split; [exact candidate_pass|]. split.
  - intros text Hlt. unfold count_lines in Hlt.
    unfold _collapse_skill_lines. cbv zeta.
    rewrite (outer_loop_no_merge (split_lines text) _ 0 [] eq_refl).
    + simpl. apply join_split_lines.
    + intros k _ Hk. destruct (merges_at (split_lines text) k) eqn:Hm; [|reflexivity].
      pose proof (merges_at_room _ _ Hk Hm). lia.
  - intros text lines i j run Hl Hsc Hi Hh Hs Hrun.
    destruct (scans_state lines 0 i Hsc []) as [before Hb].
    exists before.
    assert (Hc : _collapse_skill_lines text = join nl (outer_loop lines i before)).
    { unfold _collapse_skill_lines. cbv zeta. rewrite <- Hl, Hb. reflexivity. }
    destruct (candidate_pass lines i before j run Hi Hh Hs Hrun) as [Hmerge Hkeep].
    split; [rewrite Hb; apply (outer_loop_app lines _ i before eq_refl)|].
    split; [|split].
    + intros H3. destruct (Hmerge H3) as (_ & _ & _ & Hloop).
      rewrite Hc, Hloop, (outer_loop_app lines _ _ (before ++ _) eq_refl).
      rewrite <- app_assoc. reflexivity.
    + intros H3. destruct (Hkeep H3) as (_ & Hloop).
      rewrite Hc, Hloop, (outer_loop_app lines _ _ (before ++ _) eq_refl).
      rewrite <- app_assoc. reflexivity.
    + intros H2. destruct (Hkeep ltac:(lia)) as (_ & Hloop).
      assert (H1 : length (take_while collectable (skipn (S i) lines)) = 1).
      { rewrite inner_loop_prefix in Hrun.
        apply (f_equal (fun p => length (snd p))) in Hrun. cbn [snd] in Hrun.
        rewrite length_app, length_map in Hrun. cbn [length] in Hrun. lia. }
      destruct (second_of_two_kept lines i H1) as [Hlt Hm].
      rewrite Hc, Hloop, (outer_loop_eq lines (S i)).
      rewrite (proj2 (Nat.ltb_lt _ _) Hlt), (outer_body_keep lines (S i) _ Hm).
      cbn [fst snd].
      rewrite (outer_loop_app lines _ _ ((before ++ _) ++ _) eq_refl).
      rewrite <- !app_assoc. reflexivity.
Qed.

Lemma run_threshold_witness :
  outer_body skills3 0 [] = (3, ["Python, C++, Rust"])
  /\ outer_loop skills3 0 [] = outer_loop skills3 3 ["Python, C++, Rust"]
  /\ _collapse_skill_lines (join nl ["Python"; "C++"]) = join nl ["Python"; "C++"]
  /\ exists before,
       outer_loop headed_skills 0 [] = before ++ outer_loop headed_skills 1 []
       /\ _collapse_skill_lines (join nl headed_skills)
          = join nl (before ++ "Python, C++, Rust" :: outer_loop headed_skills 4 []).
Proof.
  destruct (proj1 run_threshold skills3 0 [] 3 skills3) as [Hmerge _];
    [simpl; lia|reflexivity|reflexivity|reflexivity|].
  destruct (Hmerge ltac:(simpl; lia)) as (Hb & _ & _ & Hl).
  split; [exact Hb|]. split; [exact Hl|].
  split; [apply (proj1 (proj2 run_threshold)); vm_compute; lia|].
  destruct (proj2 (proj2 run_threshold) (join nl headed_skills) headed_skills
              1 4 skills3) as (before & Hbefore & Hmerged & _).
  - vm_compute. reflexivity.
  - apply scans_pass; [simpl; lia|]. apply scans_here.
  - simpl; lia.
  - reflexivity.
  - reflexivity.
  - vm_compute. reflexivity.
  - exists before. split; [exact Hbefore|]. apply Hmerged. simpl. lia.
Defined.

(** C1 (the code departs from it): the header test is made only on the
    line at which a pass of the scan starts.  The inner loop that
    collects a run does not make it, so a header-like line that follows
    a candidate line is merged into the run. *)
Theorem header_merged_mid_run :
  is_header (strip "Technical Skills") = true
  /\ _collapse_skill_lines (join nl ["Python"; "Technical Skills"; "Rust"])
     = "Python, Technical Skills, Rust".
Proof. split; vm_compute; reflexivity. Qed.

(** C2 (the code departs from it): the inner loop breaks on a line of
    more than 55 characters, so a line of exactly 55 characters, which
    cannot start a run, is collected into one. *)
Theorem run_collects_55_chars :
  String.length (strip line55) = 55
  /\ looks_like_single_item (strip line55) = false
  /\ inner_loop ["a"; line55; "b"] 1 ["a"] = (3, ["a"; line55; "b"])
  /\ _collapse_skill_lines (join nl ["a"; line55; "b"])
     = join ", " ["a"; line55; "b"].
Proof. repeat split; vm_compute; reflexivity. Qed.

End NormalizerFacts.

(** ** The orchestration function *)

Module AssistantFacts.
Import Str Py Monad Normalizer ContextBuilder Assistant StrFacts Examples.

(** "Absent or blank" is the test the code makes on the credential. *)
Lemma credential_blank_iff (api_key : option string) :
  credential_blank api_key = true
  <-> api_key = None \/ exists k, api_key = Some k /\ strip k = "".
Proof.
  unfold credential_blank. destruct api_key as [k|].
  - split.
    + intros H. right. exists k. split; [reflexivity|].
      destruct k as [|c k]; [reflexivity|]. simpl in H.
      destruct (strip (String c k)); [reflexivity|discriminate].
    + intros [H|(k' & H & Hs)]; [discriminate|].
      injection H as <-. rewrite Hs. apply orb_true_r.
  - split; auto.
Qed.

Section Calls.
Variable SYSTEM_PROMPT : string.
Variable environ : string -> option string.
Variable groq : string -> request -> result response.

#[local] Abbreviation answer := (answer_question SYSTEM_PROMPT environ groq).

(** With a blank credential the function raises at once and the list of
    calls is as it was. *)
Lemma blank_credential_raises question data history calls :
  credential_blank (environ "GROQ_API_KEY") = true ->
  answer question data history calls = (Err ConfigurationError, calls).
Proof.
  intros H. unfold answer, answer_question. cbv zeta. rewrite H. reflexivity.
Qed.

(** C3: when the credential is absent from the environment, or blank
    after trimming, [answer_question] raises the configuration error,
    whatever the question, the CV data and the history, and it has made
    no call to the external API. *)
Theorem missing_credential question data history calls :
  (environ "GROQ_API_KEY" = None
   \/ exists k, environ "GROQ_API_KEY" = Some k /\ strip k = "") ->
  answer question data history calls = (Err ConfigurationError, calls).
Proof.
  intros H. apply blank_credential_raises, credential_blank_iff, H.
Qed.

(** C4: with a credential that is not blank, CV data whose context is
    the empty string makes [answer_question] return the fixed message,
    and no call to the external API is made. *)
Theorem empty_context_fallback question data history calls k :
  environ "GROQ_API_KEY" = Some k -> strip k <> "" ->
  build_context data = Ok "" ->
  answer question data history calls
  = (Ok "No CV data available to answer from.", calls).
Proof.
  intros Hk Hs Hctx. unfold answer, answer_question. cbv zeta.
  destruct (credential_blank (environ "GROQ_API_KEY")) eqn:Hb.
  - apply credential_blank_iff in Hb as [Hb|(k' & Hb & Hs')]; congruence.
  - unfold bind, lift. rewrite Hctx. reflexivity.
Qed.

(** C8: the credential is checked before the context is looked at: with
    a blank credential, CV data whose context is empty gets the
    configuration error and not the fallback message. *)
Theorem credential_check_first question data history calls :
  (environ "GROQ_API_KEY" = None
   \/ exists k, environ "GROQ_API_KEY" = Some k /\ strip k = "") ->
  build_context data = Ok "" ->
  answer question data history calls = (Err ConfigurationError, calls)
  /\ fst (answer question data history calls)
     <> Ok "No CV data available to answer from.".
Proof.
  intros H _.
  rewrite (blank_credential_raises question data history calls
             (proj2 (credential_blank_iff _) H)).
  split; [reflexivity|discriminate].
Qed.

(** Past the two guards, the one call made carries the assembled user
    message. *)
Lemma answer_sends_user_content question data history calls k context user :
  environ "GROQ_API_KEY" = Some k -> strip k <> "" ->
  build_context data = Ok context -> context <> "" ->
  user_content context history question = Ok user ->
  snd (answer question data history calls)
  = calls ++ [{| call_key := k; call_request := build_request SYSTEM_PROMPT user |}].
Proof.
  intros Hk Hs Hctx Hne Hu. unfold answer_question. cbv zeta.
  destruct (credential_blank (environ "GROQ_API_KEY")) eqn:Hb.
  - apply credential_blank_iff in Hb as [Hb|(k' & Hb & Hs')]; congruence.
  - unfold bind, lift. rewrite Hctx. cbn [ret].
    destruct context as [|c context]; [congruence|]. cbn [nonempty negb].
    rewrite Hu, Hk. cbn [ret chat_completions_create].
    destruct (groq k _) as [resp|e]; [|reflexivity].
    destruct (choices resp) as [|ch chs]; [reflexivity|].
    destruct (message ch); reflexivity.
Qed.

End Calls.

Lemma missing_credential_witness :
  answer_question "" env_unset groq_down "Who is Mayar?" sample_cv None []
  = (Err ConfigurationError, []).
Proof. apply missing_credential. left. reflexivity. Defined.

Lemma empty_context_fallback_witness :
  answer_question "" env_key groq_down "Who is Mayar?" hollow_cv None []
  = (Ok "No CV data available to answer from.", []).
Proof.
  apply (empty_context_fallback "" env_key groq_down _ _ _ _ "gsk_test").
  - reflexivity.
  - vm_compute. discriminate.
  - reflexivity.
Defined.

Lemma credential_check_first_witness :
  answer_question "" env_blank groq_down "Who is Mayar?" hollow_cv None []
  = (Err ConfigurationError, [])
  /\ fst (answer_question "" env_blank groq_down "Who is Mayar?" hollow_cv None [])
     <> Ok "No CV data available to answer from.".
Proof.
  apply credential_check_first.
  - right. exists "   ". split; reflexivity.
  - reflexivity.
Defined.

Lemma join_empty_cons (a : string) (l : list string) :
  join "" (a :: l) = (a ++ join "" l)%string.
Proof.
  unfold join. destruct l as [|b l]; simpl; [|reflexivity].
  symmetry. apply append_nil_r.
Qed.

Lemma join_empty_app (l1 l2 : list string) :
  join "" (l1 ++ l2) = (join "" l1 ++ join "" l2)%string.
Proof.
  induction l1 as [|a l1 IH]; [reflexivity|].
  rewrite <- app_comm_cons, !join_empty_cons, IH.
  symmetry. apply append_assoc.
Qed.

Lemma last_n_map {A B} (f : A -> B) (n : nat) (l : list A) :
  last_n n (map f l) = map f (last_n n l).
Proof. unfold last_n. rewrite length_map, skipn_map. reflexivity. Qed.

Lemma last_n_app {A} (older recent : list A) :
  last_n (length recent) (older ++ recent) = recent.
Proof.
  unfold last_n. rewrite length_app.
  replace (length older + length recent - length recent) with (length older) by lia.
  rewrite skipn_app, skipn_all, Nat.sub_diag. reflexivity.
Qed.

Lemma last_n_all {A} (l : list A) : last_n (length l) l = l.
Proof. apply (last_n_app [] l). Qed.

(** The loop body on the dictionary of a turn. *)
Lemma history_entry_turn (t : turn) (parts : list string) :
  history_entry (turn_value t) parts
  = (Ok tt, parts ++ (if nonempty (turn_text t) then [render_turn t] else [])).
Proof.
  assert (Hnil : forall l : list string, l = l ++ []) by (intros; rewrite app_nil_r; reflexivity).
  destruct t as [[r|] [c|]];
    unfold history_entry, turn_value, render_turn, turn_label, turn_text,
      eq_ignore_case, append, bind, lift, ret, when, get, dict_get, py_or,
      lower_of, strip_of;
    cbn [turn_role turn_content app lookup String.eqb Ascii.eqb Bool.eqb truthy].
  all: try (destruct r as [|a r]; cbn [nonempty lower]).
  all: try (destruct c as [|b c]; cbn [nonempty]).
  all: try (change (strip "") with "").
  all: try (change (lower "user") with "user").
  all: try (change (lower "assistant") with "assistant").
  all: cbn [String.eqb Ascii.eqb Bool.eqb nonempty].
  all: try (rewrite <- Hnil; reflexivity).
  all: try reflexivity.
  all: try (destruct (strip (String b c)); cbn [nonempty];
            [rewrite <- Hnil; reflexivity|reflexivity]).
Qed.

Lemma history_loop_turns (ts : list turn) (parts : list string) :
  for_each (map turn_value ts) history_entry parts
  = (Ok tt,
     parts ++ map render_turn (filter (fun t => nonempty (turn_text t)) ts)).
Proof.
  revert parts. induction ts as [|t ts IH]; intros parts; simpl.
  - rewrite app_nil_r. reflexivity.
  - unfold bind. rewrite history_entry_turn, IH.
    destruct (nonempty (turn_text t)); simpl.
    + rewrite <- app_assoc. reflexivity.
    + rewrite app_nil_r. reflexivity.
Qed.

(** C6: with a history that is not empty, the user message holds a
    "Recent conversation:" section made of the last six turns at most,
    in their order, each as "Assistant: content" when its role is
    "assistant" up to letter case and as "User: content" otherwise (a
    missing role included), the content being the trimmed one, without
    the turns whose content is empty after trimming; the turns before
    the last six leave no trace in the message. *)
Theorem recent_conversation_window :
  (forall (context : string) (ts : list turn) (question : string),
      ts <> [] ->
      user_content context (Some (map turn_value ts)) question
      = Ok ("CV context:" ++ nl ++ context ++ nl
            ++ "Recent conversation:" ++ nl
            ++ recent_conversation ts ++ nl
            ++ "Current question: " ++ strip question)%string)
  /\ (forall (context : string) (older recent : list value) (question : string),
        length recent = 6 ->
        user_content context (Some (older ++ recent)) question
        = user_content context (Some recent) question).
Proof.
  split.
  - intros context ts question Hne.
    unfold user_content. cbv zeta.
    assert (Hg : history_given (Some (map turn_value ts)) = true)
      by (destruct ts; [congruence|reflexivity]).
    rewrite Hg. cbn [when history_list].
    unfold bind at 1. unfold bind at 1. unfold append at 1.
    unfold bind at 1. rewrite last_n_map, history_loop_turns.
    unfold append. f_equal. unfold recent_conversation.
    rewrite !join_empty_app, !join_empty_cons. simpl.
    rewrite !append_assoc. simpl. rewrite append_nil_r. reflexivity.
  - intros context older recent question Hlen.
    unfold user_content. cbv zeta.
    assert (Hg1 : history_given (Some (older ++ recent)) = true).
    { destruct recent; [discriminate|]. destruct older; reflexivity. }
    assert (Hg2 : history_given (Some recent) = true)
      by (destruct recent; [discriminate|reflexivity]).
    rewrite Hg1, Hg2. cbn [history_list].
    rewrite <- Hlen, last_n_app, last_n_all. reflexivity.
Qed.

Lemma recent_conversation_window_witness :
  user_content "ctx" (Some (map turn_value ten_turns)) "next?"
  = Ok ("CV context:" ++ nl ++ "ctx" ++ nl
        ++ "Recent conversation:" ++ nl
        ++ "User: q5" ++ nl ++ "Assistant: a6" ++ nl ++ "User: q7" ++ nl
        ++ "User: q9" ++ nl
        ++ nl ++ "Current question: next?")%string
  /\ user_content "ctx" (Some (map turn_value ten_turns)) "next?"
     = user_content "ctx" (Some (map turn_value (skipn 4 ten_turns))) "next?".
Proof.
  split.
  - apply (proj1 recent_conversation_window "ctx" ten_turns "next?").
    discriminate.
  - apply (proj2 recent_conversation_window "ctx"
             (map turn_value (firstn 4 ten_turns))
             (map turn_value (skipn 4 ten_turns)) "next?").
    reflexivity.
Defined.

End AssistantFacts.

(** ** The context builder *)

Module ContextBuilderFacts.
Import Str Py Monad ContextBuilder Examples.
Local Open Scope monad_scope.

Lemma appends_ret {A} (a : A) : appends (ret a).
Proof. intros parts. unfold ret. simpl. rewrite app_nil_r. reflexivity. Qed.

Lemma appends_raise {A} (e : exn) : appends (@raise _ A e).
Proof. intros parts. unfold raise. simpl. rewrite app_nil_r. reflexivity. Qed.

Lemma appends_lift {A} (r : result A) : appends (lift r).
Proof. destruct r; [apply appends_ret|apply appends_raise]. Qed.

Lemma appends_append (s : string) : appends (append s).
Proof. intros parts. reflexivity. Qed.

Lemma appends_bind {A B} (m : M (list string) A) (k : A -> M (list string) B) :
  appends m -> (forall a, appends (k a)) -> appends (bind m k).
Proof.
  intros Hm Hk parts. unfold bind. rewrite (Hm parts).
  destruct (m []) as [[a|e] d]; simpl; [|reflexivity].
  rewrite (Hk a (parts ++ d)), (Hk a d). simpl.
  rewrite app_assoc. reflexivity.
Qed.

Lemma appends_when (b : bool) (m : M (list string) unit) :
  appends m -> appends (when b m).
Proof. destruct b; [auto|intros; apply appends_ret]. Qed.

Lemma appends_if {A} (b : bool) (m1 m2 : M (list string) A) :
  appends m1 -> appends m2 -> appends (if b then m1 else m2).
Proof. destruct b; auto. Qed.

Lemma appends_for_each {A} (l : list A) (body : A -> M (list string) unit) :
  (forall x, appends (body x)) -> appends (for_each l body).
Proof.
  intros Hb. induction l as [|x l IH]; simpl.
  - apply appends_ret.
  - apply appends_bind; [apply Hb|intros; exact IH].
Qed.

Ltac appends_step :=
  first [ apply appends_ret | apply appends_raise | apply appends_lift
        | apply appends_append | apply appends_when | apply appends_if
        | apply appends_for_each | apply appends_bind | intro ].

Ltac appends_tac := cbv zeta; repeat appends_step.

Lemma appends_education_entry (e : value) : appends (education_entry e).
Proof. unfold education_entry. appends_tac. Qed.

Lemma appends_skills_entry (kv : string * value) : appends (skills_entry kv).
Proof.
  destruct kv as [key v]. unfold skills_entry.
  destruct (String.eqb key "notes" || negb (truthy v)); [apply appends_ret|].
  destruct v; apply appends_append.
Qed.

Lemma appends_profile_block data : appends (profile_block data).
Proof. unfold profile_block. appends_tac. Qed.

Lemma appends_experience_block data : appends (experience_block data).
Proof. unfold experience_block. appends_tac. Qed.

Lemma appends_projects_block data : appends (projects_block data).
Proof. unfold projects_block. appends_tac. Qed.

Lemma appends_education_block data : appends (education_block data).
Proof.
  unfold education_block. cbv zeta.
  apply appends_when, appends_bind; [apply appends_append|intros _].
  apply appends_bind; [apply appends_lift|intros es].
  apply appends_bind; [|intros _; apply appends_append].
  apply appends_for_each, appends_education_entry.
Qed.

Lemma appends_skills_block data : appends (skills_block data).
Proof.
  unfold skills_block. cbv zeta.
  destruct (py_or (dict_get data "skills" VNone) (VDict [])); try apply appends_ret.
  apply appends_when, appends_bind; [apply appends_append|intros _].
  apply appends_bind; [apply appends_for_each, appends_skills_entry|intros _].
  appends_tac.
Qed.

(** Two computations in sequence: when the whole succeeds, both do, and
    the lines added are those of the first followed by those of the
    second. *)
Lemma seq_sections (m1 m2 : M (list string) unit) :
  appends m2 ->
  fst ((m1 ;; m2) []) = Ok tt ->
  fst (m1 []) = Ok tt /\ fst (m2 []) = Ok tt
  /\ snd ((m1 ;; m2) []) = snd (m1 []) ++ snd (m2 []).
Proof.
  intros H2. unfold bind. destruct (m1 []) as [[[]|e] d]; simpl.
  - rewrite (H2 d). simpl. auto.
  - discriminate.
Qed.

Lemma build_parts_sections (data : dict) :
  fst (build_parts data []) = Ok tt ->
  snd (build_parts data [])
  = section profile_block data ++ section experience_block data
    ++ section projects_block data ++ section education_block data
    ++ section skills_block data.
Proof.
  unfold build_parts, section. intros H.
  pose proof (appends_experience_block data) as He.
  pose proof (appends_projects_block data) as Hp.
  pose proof (appends_education_block data) as Hd.
  pose proof (appends_skills_block data) as Hs.
  apply seq_sections in H as (_ & H & ->);
    [|repeat (apply appends_bind; [assumption|intros _]); assumption].
  apply seq_sections in H as (_ & H & ->);
    [|repeat (apply appends_bind; [assumption|intros _]); assumption].
  apply seq_sections in H as (_ & H & ->);
    [|repeat (apply appends_bind; [assumption|intros _]); assumption].
  apply seq_sections in H as (_ & H & ->); [|assumption].
  reflexivity.
Qed.

(** A block that starts by appending its label. *)
Lemma labelled_start (label : string) (rest : M (list string) unit) :
  appends rest ->
  exists r, snd ((append label ;; rest) []) = label :: r.
Proof.
  intros H. unfold bind, append. simpl. rewrite (H [label]). simpl. eauto.
Qed.

Lemma labelled_profile data :
  labelled (present data "profile") "## Profile" (section profile_block data).
Proof.
  unfold labelled, present, section, profile_block, py_or. cbv zeta. simpl.
  destruct (truthy (dict_get data "profile" VNone)) eqn:E.
  - rewrite E. cbn [when]. apply labelled_start. appends_tac.
  - reflexivity.
Qed.

Lemma labelled_experience data :
  labelled (present data "experience") "## Experience"
    (section experience_block data).
Proof.
  unfold labelled, present, section, experience_block, py_or. cbv zeta. simpl.
  destruct (truthy (dict_get data "experience" VNone)) eqn:E.
  - rewrite E. cbn [when]. apply labelled_start. appends_tac.
  - reflexivity.
Qed.

Lemma labelled_projects data :
  labelled (present data "projects") "## Projects" (section projects_block data).
Proof.
  unfold labelled, present, section, projects_block, py_or. cbv zeta. simpl.
  destruct (truthy (dict_get data "projects" VNone)) eqn:E.
  - rewrite E. cbn [when]. apply labelled_start. appends_tac.
  - reflexivity.
Qed.

Lemma labelled_education data :
  labelled (present data "education") "## Education"
    (section education_block data).
Proof.
  unfold labelled, present, section, education_block, py_or. cbv zeta. simpl.
  destruct (truthy (dict_get data "education" VNone)) eqn:E.
  - rewrite E. cbn [when]. apply labelled_start.
    apply appends_bind; [apply appends_lift|intros es].
    apply appends_bind; [|intros _; apply appends_append].
    apply appends_for_each, appends_education_entry.
  - reflexivity.
Qed.

Lemma labelled_skills data :
  labelled (present data "skills") "## Skills" (section skills_block data).
Proof.
  unfold labelled, present, section, skills_block, py_or. cbv zeta.
  cbn [String.eqb Ascii.eqb Bool.eqb].
  destruct (dict_get data "skills" VNone) as [|b|n|s0|l|items].
  - reflexivity.
  - destruct b; reflexivity.
  - cbn [truthy is_dict]. rewrite andb_false_r.
    destruct (negb (int_value n =? 0)%Z); reflexivity.
  - destruct s0; reflexivity.
  - destruct l; reflexivity.
  - destruct items as [|kv items]; [reflexivity|].
    cbn [truthy is_dict andb when]. apply labelled_start.
    apply appends_bind; [apply appends_for_each, appends_skills_entry|intros _].
    appends_tac.
Qed.

(** Each block reads the data through one top-level field only. *)
Lemma blocks_read_one_field (d1 d2 : dict) (field : string)
  (block : dict -> M (list string) unit) :
  In (field, block) blocks ->
  lookup field d1 = lookup field d2 -> block d1 = block d2.
Proof.
  unfold blocks. simpl.
  intros [H|[H|[H|[H|[H|[]]]]]] Hl; injection H as <- <-;
    unfold profile_block, experience_block, projects_block, education_block,
      skills_block, dict_get; rewrite Hl; reflexivity.
Qed.

Lemma build_context_fields (d1 d2 : dict) :
  (forall field block, In (field, block) blocks ->
                       lookup field d1 = lookup field d2) ->
  build_context d1 = build_context d2.
Proof.
  intros H. unfold build_context, build_parts.
  rewrite (blocks_read_one_field d1 d2 "profile" profile_block),
    (blocks_read_one_field d1 d2 "experience" experience_block),
    (blocks_read_one_field d1 d2 "projects" projects_block),
    (blocks_read_one_field d1 d2 "education" education_block),
    (blocks_read_one_field d1 d2 "skills" skills_block);
    try reflexivity;
    try (eapply H); unfold blocks; simpl; tauto.
Qed.

Lemma lookup_remove_same (field : string) (d : dict) :
  lookup field (dict_remove field d) = None.
Proof.
  induction d as [|[k v] d IH]; simpl; [reflexivity|].
  destruct (String.eqb field k) eqn:E; simpl; [exact IH|].
  rewrite E. exact IH.
Qed.

Lemma lookup_remove_other (k field : string) (d : dict) :
  String.eqb k field = false ->
  lookup k (dict_remove field d) = lookup k d.
Proof.
  intros Hne. induction d as [|[k0 v] d IH]; simpl; [reflexivity|].
  destruct (String.eqb field k0) eqn:E; simpl.
  - apply String.eqb_eq in E. subst k0. rewrite Hne. exact IH.
  - rewrite IH. reflexivity.
Qed.

(** The block of a field that is missing does nothing. *)
Lemma block_of_missing_field (data : dict) (field : string)
  (block : dict -> M (list string) unit) :
  In (field, block) blocks ->
  lookup field data = None -> block data = ret tt.
Proof.
  unfold blocks. simpl.
  intros [H|[H|[H|[H|[H|[]]]]]] Hl; injection H as <- <-;
    unfold profile_block, experience_block, projects_block, education_block,
      skills_block, dict_get; rewrite Hl; reflexivity.
Qed.

(** The block of a field whose value is false, or of skills that are not
    a dictionary, does nothing either. *)
Lemma block_of_falsy_field (data : dict) (field : string)
  (block : dict -> M (list string) unit) (v : value) :
  In (field, block) blocks ->
  lookup field data = Some v ->
  truthy v = false \/ (field = "skills" /\ is_dict v = false) ->
  block data = ret tt.
Proof.
  unfold blocks. simpl.
  intros [H|[H|[H|[H|[H|[]]]]]] Hl Hv; injection H as <- <-;
    unfold profile_block, experience_block, projects_block, education_block,
      skills_block, dict_get, py_or; rewrite Hl;
    destruct Hv as [Hv|[Hf Hv]]; try discriminate Hf;
    try (rewrite Hv; reflexivity).
  destruct v; try discriminate Hv;
    match goal with |- context [truthy ?x] => destruct (truthy x) end;
    reflexivity.
Qed.

(** C7: the context is made of one section for each top-level field
    that is present, each under its label, and the sections come in the
    order Profile, Experience, Projects, Education, Skills; the context
    is a function of the five fields of the CV data. *)
Theorem sections_in_order :
  (forall (data : dict) (s : string),
      build_context data = Ok s ->
      s = strip (join nl (section profile_block data
                          ++ section experience_block data
                          ++ section projects_block data
                          ++ section education_block data
                          ++ section skills_block data))
      /\ labelled (present data "profile") "## Profile"
           (section profile_block data)
      /\ labelled (present data "experience") "## Experience"
           (section experience_block data)
      /\ labelled (present data "projects") "## Projects"
           (section projects_block data)
      /\ labelled (present data "education") "## Education"
           (section education_block data)
      /\ labelled (present data "skills") "## Skills"
           (section skills_block data))
  /\ (forall d1 d2 : dict,
        (forall field block, In (field, block) blocks ->
                             lookup field d1 = lookup field d2) ->
        build_context d1 = build_context d2).
Proof.
  split; [|exact build_context_fields].
  intros data s H. unfold build_context in H.
  pose proof (build_parts_sections data) as Hs.
  destruct (build_parts data []) as [[[]|e] parts]; [|discriminate].
  injection H as <-. simpl in Hs. rewrite (Hs eq_refl).
  repeat split;
    [apply labelled_profile|apply labelled_experience|apply labelled_projects
    |apply labelled_education|apply labelled_skills].
Qed.

Lemma sections_in_order_witness :
  section profile_block sample_cv
  = ["## Profile"; "Name: Mayar Waleed Nawas"; "Job title: Full-stack developer";
     "GitHub: https://github.com/myarnwas"; "LinkedIn: "; ""]
  /\ labelled (present sample_cv "projects") "## Projects"
       (section projects_block sample_cv)
  /\ labelled (present sample_cv "skills") "## Skills"
       (section skills_block sample_cv).
Proof.
  destruct (proj1 sections_in_order sample_cv _ eq_refl)
    as (_ & _ & _ & Hprojects & _ & Hskills).
  split; [reflexivity|]. split; assumption.
Defined.

(** C10: a top-level field that is there with a false value (an empty
    dictionary or list, [None], an empty string, zero), and skills that
    are not a dictionary, are treated as a missing field: the block adds
    no line and raises nothing, and the context is the one of the data
    without the field. *)
Theorem falsy_field_is_absent (data : dict) (field : string)
  (block : dict -> M (list string) unit) (v : value) :
  In (field, block) blocks ->
  lookup field data = Some v ->
  truthy v = false \/ (field = "skills" /\ is_dict v = false) ->
  (forall parts, block data parts = (Ok tt, parts))
  /\ block data = block (dict_remove field data)
  /\ build_context data = build_context (dict_remove field data).
Proof.
  intros Hin Hl Hv.
  pose proof (block_of_falsy_field data field block v Hin Hl Hv) as Hb.
  pose proof (block_of_missing_field (dict_remove field data) field block Hin
                (lookup_remove_same field data)) as Hb'.
  split; [intros parts; rewrite Hb; reflexivity|].
  split; [congruence|].
  assert (Hall : forall f b, In (f, b) blocks -> b data = b (dict_remove field data)).
  { intros f b Hfb. destruct (String.eqb f field) eqn:E.
    - apply String.eqb_eq in E. subst f.
      rewrite (block_of_falsy_field data field b v Hfb Hl Hv).
      rewrite (block_of_missing_field (dict_remove field data) field b Hfb
                 (lookup_remove_same field data)).
      reflexivity.
    - apply (blocks_read_one_field _ _ f b Hfb).
      symmetry. apply lookup_remove_other, E. }
  unfold build_context, build_parts.
  rewrite (Hall "profile" profile_block), (Hall "experience" experience_block),
    (Hall "projects" projects_block), (Hall "education" education_block),
    (Hall "skills" skills_block);
    try reflexivity; unfold blocks; simpl; tauto.
Qed.

Lemma falsy_field_is_absent_witness :
  build_context hollow_cv = build_context (dict_remove "skills" hollow_cv)
  /\ build_context hollow_cv = build_context (dict_remove "profile" hollow_cv).
Proof.
  split.
  - apply (falsy_field_is_absent hollow_cv "skills" skills_block
             (VList [VStr "React"])).
    + unfold blocks. simpl. tauto.
    + reflexivity.
    + right. split; reflexivity.
  - apply (falsy_field_is_absent hollow_cv "profile" profile_block (VDict [])).
    + unfold blocks. simpl. tauto.
    + reflexivity.
    + left. reflexivity.
Defined.

End ContextBuilderFacts.

(** ** Trimming *)

Module StripFacts.
Import Str StrFacts Reference.

Lemma lstrip_head (s : string) :
  match lstrip s with
  | "" => True
  | String c _ => isspace c = false
  end.
Proof.
  induction s as [|c s IH]; simpl; [exact I|].
  destruct (isspace c) eqn:E; [exact IH|exact E].
Qed.

Lemma lstrip_fixed (c : ascii) (s : string) :
  isspace c = false -> lstrip (String c s) = String c s.
Proof. intros H. simpl. rewrite H. reflexivity. Qed.

Lemma rstrip_head (c : ascii) (s : string) :
  isspace c = false -> exists r, rstrip (String c s) = String c r.
Proof.
  intros H. simpl. destruct (rstrip s) as [|c' r].
  - rewrite H. eauto.
  - eauto.
Qed.

Lemma rstrip_idempotent (s : string) : rstrip (rstrip s) = rstrip s.
Proof.
  induction s as [|c s IH]; simpl; [reflexivity|].
  destruct (rstrip s) as [|c' r] eqn:E.
  - destruct (isspace c) eqn:Ec; simpl; [reflexivity|]. rewrite Ec. reflexivity.
  - change (rstrip (String c (String c' r))) with
      (match rstrip (String c' r) with
       | "" => if isspace c then "" else String c ""
       | r' => String c r'
       end).
    rewrite IH. reflexivity.
Qed.

(** Trimming a trimmed string changes nothing. *)
Lemma strip_idempotent (s : string) : strip (strip s) = strip s.
Proof.
  unfold strip. pose proof (lstrip_head s) as H.
  destruct (lstrip s) as [|c t] eqn:E; [reflexivity|].
  destruct (rstrip_head c t H) as [r Hr]. rewrite Hr.
  rewrite (lstrip_fixed c r H), <- Hr. apply rstrip_idempotent.
Qed.

(** A trimmed string that is not empty starts with a character that is
    not white space. *)
Lemma strip_head (s : string) :
  match strip s with
  | "" => True
  | String c _ => isspace c = false
  end.
Proof.
  unfold strip. pose proof (lstrip_head s) as H.
  destruct (lstrip s) as [|c t]; [exact I|].
  destruct (rstrip_head c t H) as [r ->]. exact H.
Qed.

Lemma rstrip_append (a b : string) :
  rstrip b <> "" -> rstrip (a ++ b) = (a ++ rstrip b)%string.
Proof.
  intros Hb. induction a as [|c a IH]; simpl; [reflexivity|].
  rewrite IH. destruct (a ++ rstrip b)%string eqn:E; [|reflexivity].
  destruct a; simpl in E; [congruence|discriminate].
Qed.

Lemma lstrip_append (a b : string) :
  lstrip a = a -> a <> "" -> lstrip (a ++ b) = (a ++ b)%string.
Proof.
  destruct a as [|c a]; [congruence|]. simpl.
  destruct (isspace c) eqn:E; [|reflexivity].
  intros H _. exfalso.
  pose proof (lstrip_head a) as Hh. rewrite H in Hh. congruence.
Qed.

Lemma trimmed_strip (s : string) : strip s <> "" -> trimmed (strip s).
Proof. intros H. split; [exact H|apply strip_idempotent]. Qed.

Lemma trimmed_ends (s : string) :
  trimmed s -> lstrip s = s /\ rstrip s = s.
Proof.
  intros [Hne Hs]. pose proof (strip_head s) as Hh. rewrite Hs in Hh.
  destruct s as [|c t]; [congruence|].
  assert (Hl : lstrip (String c t) = String c t) by (apply lstrip_fixed, Hh).
  split; [exact Hl|]. unfold strip in Hs. rewrite Hl in Hs. exact Hs.
Qed.

(** A text between two trimmed strings is trimmed as a whole. *)
Lemma trimmed_append (a mid b : string) :
  trimmed a -> trimmed b -> trimmed (a ++ mid ++ b).
Proof.
  intros Ha Hb.
  destruct (trimmed_ends a Ha) as [Hla _].
  destruct (trimmed_ends b Hb) as [_ Hrb].
  destruct Ha as [Hna _]. destruct Hb as [Hnb _].
  split.
  - destruct a; [congruence|discriminate].
  - unfold strip. rewrite (lstrip_append a _ Hla Hna).
    rewrite <- append_assoc, rstrip_append by (rewrite Hrb; exact Hnb).
    rewrite Hrb. reflexivity.
Qed.

End StripFacts.

(** ** The normalizer as a whole *)

Module NormalizerMore.
Import Str Normalizer Reference StrFacts StripFacts NormalizerFacts.

(** X1: the inner loop takes the longest stretch of lines, from [j] on,
    on which none of its [break] tests fires (after trimming: not
    empty, no leading hash, hyphen or star, no comma, at most 55
    characters); it appends them trimmed to the run and stops at the
    first other line or at the end of the text. *)
Theorem inner_loop_take_while (lines : list string) (j : nat) (run : list string) :
  inner_loop lines j run
  = (j + length (take_while collectable (skipn j lines)),
     run ++ map strip (take_while collectable (skipn j lines))).
Proof. apply inner_loop_prefix. Qed.

(** The outer loop emits what [collapse_list] gives for the lines from
    [i] on. *)
Lemma outer_loop_collapse_list (lines : list string) (i : nat) (out : list string) :
  outer_loop lines i out = out ++ collapse_list (skipn i lines).
Proof.
  remember (length lines - i) as n eqn:Hn.
  revert i out Hn. induction n as [n IH] using lt_wf_ind. intros i out Hn.
  rewrite outer_loop_eq. destruct (i <? length lines) eqn:E.
  - apply Nat.ltb_lt in E.
    rewrite (skipn_nth_cons lines i E), collapse_list_equation_2.
    rewrite <- merges_at_run_of.
    destruct (merges_at lines i) eqn:Hm.
    + rewrite (outer_body_merge lines i out Hm), inner_loop_prefix.
      cbn [fst snd].
      pose proof (merges_at_room lines i E Hm) as Hroom.
      rewrite (IH (length lines - (S i + length (take_while collectable (skipn (S i) lines)))));
        [|lia|reflexivity].
      assert (Hk : length (run_of (nth i lines "") (skipn (S i) lines)) - 1
                   = length (take_while collectable (skipn (S i) lines))).
      { unfold run_of. cbn [length]. rewrite length_map. lia. }
      rewrite Hk, skipn_skipn, (Nat.add_comm _ (S i)), <- app_assoc.
      reflexivity.
    + rewrite (outer_body_keep lines i out Hm). cbn [fst snd].
      rewrite (IH (length lines - S i)); [|lia|reflexivity].
      rewrite <- app_assoc. reflexivity.
  - apply Nat.ltb_ge in E. rewrite (skipn_all2 lines E), collapse_list_equation_1.
    rewrite app_nil_r. reflexivity.
Qed.

Lemma collapse_as_list (text : string) :
  _collapse_skill_lines text = join nl (collapse_list (split_lines text)).
Proof.
  unfold _collapse_skill_lines. cbv zeta.
  rewrite outer_loop_collapse_list. reflexivity.
Qed.

Lemma collapse_list_not_nil (l : list string) : l <> [] -> collapse_list l <> [].
Proof.
  destruct l as [|x rest]; [congruence|]. intros _.
  rewrite collapse_list_equation_2. destruct (_ && _); discriminate.
Qed.

Lemma collapse_list_no_lf (l : list string) :
  all_no_lf l -> all_no_lf (collapse_list l).
Proof.
  intros H.
  pose proof (outer_loop_no_lf l H _ 0 [] eq_refl (Forall_nil _)) as Ho.
  rewrite outer_loop_collapse_list in Ho. exact Ho.
Qed.

(** The lines of the output are what [collapse_list] gives for the lines
    of the input. *)
Lemma split_lines_collapse (text : string) :
  split_lines (_collapse_skill_lines text) = collapse_list (split_lines text).
Proof.
  rewrite collapse_as_list. apply split_lines_join.
  - apply collapse_list_not_nil, split_lines_not_nil.
  - apply collapse_list_no_lf, split_lines_no_lf.
Qed.

Lemma single_item_collectable (x : string) :
  looks_like_single_item (strip x) = true -> collectable x = true.
Proof.
  unfold looks_like_single_item, collectable, inner_break.
  destruct (nonempty (strip x)), (startswith "-" (strip x)),
    (startswith "*" (strip x)), (startswith "#" (strip x)),
    (contains "," (strip x)); simpl; try discriminate.
  intros H. apply Nat.ltb_lt in H.
  apply negb_true_iff, Nat.ltb_ge. lia.
Qed.

Lemma collectable_trimmed (x : string) :
  collectable x = true -> trimmed (strip x).
Proof.
  unfold collectable, inner_break. intros H. apply trimmed_strip.
  destruct (strip x); [discriminate|discriminate].
Qed.

Lemma single_item_trimmed (x : string) :
  looks_like_single_item (strip x) = true -> trimmed (strip x).
Proof. intros H. apply collectable_trimmed, single_item_collectable, H. Qed.

Lemma contains_append_r (sub a b : string) :
  contains sub b = true -> contains sub (a ++ b) = true.
Proof.
  intros H. induction a as [|c a IH]; simpl; [exact H|].
  rewrite IH. apply orb_true_r.
Qed.

Lemma join_cons2 (sep a b : string) (l : list string) :
  join sep (a :: b :: l) = (a ++ sep ++ join sep (b :: l))%string.
Proof. reflexivity. Qed.

Lemma contains_comma_join (l : list string) :
  2 <= length l -> contains "," (join ", " l) = true.
Proof.
  destruct l as [|a [|b l]]; simpl length; try lia. intros _.
  rewrite join_cons2. apply contains_append_r. reflexivity.
Qed.

Lemma trimmed_join (l : list string) :
  l <> [] -> Forall trimmed l -> trimmed (join ", " l).
Proof.
  induction l as [|a l IH]; [congruence|]. intros _ H.
  inversion H as [|? ? Ha Hl]; subst.
  destruct l as [|b l]; [exact Ha|].
  rewrite join_cons2. apply trimmed_append; [exact Ha|].
  apply IH; [discriminate|exact Hl].
Qed.

(** A merged line holds a comma: it is no candidate and no collectable
    line. *)
Lemma merged_line_is_barrier (run : list string) :
  2 <= length run -> Forall trimmed run ->
  looks_like_single_item (strip (join ", " run)) = false
  /\ collectable (join ", " run) = false.
Proof.
  intros Hlen Hall.
  assert (Hne : run <> []) by (destruct run; [simpl in Hlen; lia|discriminate]).
  destruct (trimmed_join run Hne Hall) as [_ Hs].
  pose proof (contains_comma_join run Hlen) as Hc.
  unfold looks_like_single_item, collectable, inner_break. rewrite Hs, Hc.
  split.
  - rewrite !andb_false_r. reflexivity.
  - rewrite !orb_true_r. reflexivity.
Qed.

Lemma run_of_trimmed (x : string) (rest : list string) :
  looks_like_single_item (strip x) = true -> Forall trimmed (run_of x rest).
Proof.
  intros H. unfold run_of. constructor; [apply single_item_trimmed, H|].
  apply Forall_forall. intros y Hy. apply in_map_iff in Hy as (z & <- & Hz).
  apply collectable_trimmed.
  apply (proj1 (Forall_forall _ _) (take_while_all collectable rest)), Hz.
Qed.

Lemma collapse_list_cons (x : string) (rest : list string) :
  collapse_list (x :: rest)
  = if merges x rest
    then join ", " (run_of x rest)
         :: collapse_list (skipn (length (run_of x rest) - 1) rest)
    else x :: collapse_list rest.
Proof. apply collapse_list_equation_2. Qed.

Lemma merges_inv (x : string) (rest : list string) :
  merges x rest = true ->
  looks_like_single_item (strip x) = true /\ 3 <= length (run_of x rest).
Proof.
  unfold merges. intros H. apply andb_true_iff in H as [H H3].
  apply andb_true_iff in H as [_ Hs]. apply Nat.leb_le in H3. auto.
Qed.

(** The collectable stretch at the head of the output is no longer than
    the one at the head of the input. *)
Lemma take_while_collapse_list (l : list string) :
  length (take_while collectable (collapse_list l))
  <= length (take_while collectable l).
Proof.
  remember (length l) as n eqn:Hn. revert l Hn.
  induction n as [n IH] using lt_wf_ind. intros l Hn.
  destruct l as [|x rest]; [rewrite collapse_list_equation_1; simpl; lia|].
  rewrite collapse_list_cons. destruct (merges x rest) eqn:Hm.
  - apply merges_inv in Hm as [Hs H3].
    destruct (merged_line_is_barrier (run_of x rest)) as [_ Hb];
      [lia|apply run_of_trimmed, Hs|].
    cbn [take_while]. rewrite Hb. simpl. lia.
  - cbn [take_while]. destruct (collectable x); simpl; [|lia].
    specialize (IH (length rest) ltac:(simpl in Hn; lia) rest eq_refl). lia.
Qed.

Lemma collapse_list_idempotent (l : list string) :
  collapse_list (collapse_list l) = collapse_list l.
Proof.
  remember (length l) as n eqn:Hn. revert l Hn.
  induction n as [n IH] using lt_wf_ind. intros l Hn.
  destruct l as [|x rest]; [rewrite !collapse_list_equation_1; reflexivity|].
  simpl in Hn. rewrite collapse_list_cons. destruct (merges x rest) eqn:Hm.
  - destruct (merges_inv x rest Hm) as [Hs H3].
    destruct (merged_line_is_barrier (run_of x rest)) as [Hb _];
      [lia|apply run_of_trimmed, Hs|].
    rewrite collapse_list_cons. unfold merges at 1. rewrite Hb.
    rewrite andb_false_r. cbn [andb]. f_equal.
    apply (IH (length (skipn (length (run_of x rest) - 1) rest))); [|reflexivity].
    rewrite length_skipn. lia.
  - rewrite collapse_list_cons.
    destruct (merges x (collapse_list rest)) eqn:Hm'.
    + exfalso. unfold merges in Hm, Hm'.
      apply andb_true_iff in Hm' as [Hc H3]. rewrite Hc in Hm. cbn [andb] in Hm.
      apply Nat.leb_le in H3. apply Nat.leb_gt in Hm.
      pose proof (take_while_collapse_list rest) as Hle.
      unfold run_of in H3, Hm. cbn [length] in H3, Hm.
      rewrite length_map in H3, Hm. lia.
    + f_equal. apply (IH (length rest)); [lia|reflexivity].
Qed.

(** X2: applying the normalizer to its own output changes nothing. *)
Theorem collapse_idempotent (text : string) :
  _collapse_skill_lines (_collapse_skill_lines text)
  = _collapse_skill_lines text.
Proof.
  rewrite (collapse_as_list (_collapse_skill_lines text)).
  rewrite split_lines_collapse, collapse_list_idempotent.
  symmetry. apply collapse_as_list.
Qed.

Lemma collapse_list_grouped (l : list string) : grouped l (collapse_list l).
Proof.
  remember (length l) as n eqn:Hn. revert l Hn.
  induction n as [n IH] using lt_wf_ind. intros l Hn.
  destruct l as [|x rest]; [rewrite collapse_list_equation_1; constructor|].
  simpl in Hn. rewrite collapse_list_cons. destruct (merges x rest) eqn:Hm.
  - destruct (merges_inv x rest Hm) as [Hs H3].
    set (tw := take_while collectable rest).
    assert (Hk : length (run_of x rest) - 1 = length tw).
    { unfold run_of, tw. cbn [length]. rewrite length_map. lia. }
    rewrite Hk.
    replace (x :: rest) with ((x :: tw) ++ skipn (length tw) rest)
      by (cbn [app]; unfold tw; rewrite take_while_skipn; reflexivity).
    change (run_of x rest) with (map strip (x :: tw)).
    apply grouped_merge.
    + unfold run_of in H3. cbn [length] in H3 |- *.
      rewrite length_map in H3. exact H3.
    + constructor; [apply single_item_collectable, Hs|apply take_while_all].
    + apply (IH (length (skipn (length tw) rest))); [|reflexivity].
      rewrite length_skipn. lia.
  - apply grouped_keep. apply (IH (length rest)); [lia|reflexivity].
Qed.

(** X3: the output is the input with its lines in the same order, some
    groups of three or more consecutive collectable lines having been
    replaced by their trimmed members joined with a comma and a space;
    no other line is changed, dropped or added. *)
Theorem collapse_grouped (text : string) :
  grouped (split_lines text) (split_lines (_collapse_skill_lines text)).
Proof. rewrite split_lines_collapse. apply collapse_list_grouped. Qed.

Lemma collapse_join (l : list string) :
  l <> [] -> all_no_lf l ->
  split_lines (_collapse_skill_lines (join nl l)) = collapse_list l.
Proof.
  intros Hne Hl. rewrite split_lines_collapse, split_lines_join by assumption.
  reflexivity.
Qed.

(** X4: a text made of a candidate line followed by two or more
    collectable lines, and of nothing else, becomes one line: the
    trimmed lines joined with a comma and a space. *)
Theorem collapse_merges_list (x : string) (rest : list string) :
  all_no_lf (x :: rest) ->
  is_header (strip x) = false ->
  looks_like_single_item (strip x) = true ->
  Forall (fun l => collectable l = true) rest ->
  2 <= length rest ->
  _collapse_skill_lines (join nl (x :: rest)) = join ", " (map strip (x :: rest)).
Proof.
  intros Hl Hh Hs Hrest Hlen.
  rewrite collapse_as_list, split_lines_join; [|discriminate|exact Hl].
  rewrite collapse_list_cons. unfold merges, run_of.
  rewrite (take_while_id collectable rest Hrest), Hh, Hs.
  cbn [negb andb length]. rewrite length_map.
  rewrite (proj2 (Nat.leb_le 3 (S (length rest)))) by lia.
  replace (S (length rest) - 1) with (length rest) by lia.
  rewrite skipn_all, collapse_list_equation_1. reflexivity.
Qed.

Lemma collapse_merges_list_witness :
  _collapse_skill_lines (join nl ["  Python "; "Machine Learning"; "C++"; " Rust"])
  = "Python, Machine Learning, C++, Rust".
Proof.
  apply (collapse_merges_list "  Python " ["Machine Learning"; "C++"; " Rust"]).
  - repeat constructor.
  - reflexivity.
  - reflexivity.
  - repeat constructor.
  - simpl. lia.
Defined.

Lemma collapse_list_keeps (l : list string) :
  (forall x, In x l ->
     is_header (strip x) = true \/ looks_like_single_item (strip x) = false) ->
  collapse_list l = l.
Proof.
  induction l as [|x rest IH]; intros H; [apply collapse_list_equation_1|].
  rewrite collapse_list_cons.
  assert (Hm : merges x rest = false).
  { unfold merges. destruct (H x (or_introl eq_refl)) as [-> | ->];
      [reflexivity|rewrite andb_false_r; reflexivity]. }
  rewrite Hm, IH; [reflexivity|]. intros y Hy. apply H. right. exact Hy.
Qed.

(** X5: a text none of whose lines is a candidate (each is a header, or
    blank, or starts with a bullet or a hash, or holds a comma, or has
    55 characters or more) is returned as it is. *)
Theorem collapse_keeps_text (text : string) :
  (forall x, In x (split_lines text) ->
     is_header (strip x) = true \/ looks_like_single_item (strip x) = false) ->
  _collapse_skill_lines text = text.
Proof.
  intros H. rewrite collapse_as_list, (collapse_list_keeps _ H).
  apply join_split_lines.
Qed.

Lemma collapse_keeps_text_witness :
  _collapse_skill_lines (join nl ["## Skills"; "- React"; "- Next.js"; "* Rust"; ""; "Go, Zig"])
  = join nl ["## Skills"; "- React"; "- Next.js"; "* Rust"; ""; "Go, Zig"].
Proof.
  apply collapse_keeps_text. simpl.
  intros x [<-|[<-|[<-|[<-|[<-|[<-|[]]]]]]]; right; reflexivity.
Defined.

(** X6: a line that is no candidate is emitted as it is, and the lines
    after it are normalized as if the text started with them. *)
Theorem collapse_after_kept_line (x : string) (rest : list string) :
  rest <> [] -> all_no_lf (x :: rest) ->
  is_header (strip x) = true \/ looks_like_single_item (strip x) = false ->
  split_lines (_collapse_skill_lines (join nl (x :: rest)))
  = x :: split_lines (_collapse_skill_lines (join nl rest)).
Proof.
  intros Hne Hl Hx. inversion Hl as [|? ? _ Hrest]; subst.
  rewrite !collapse_join; [|exact Hne|exact Hrest|discriminate|exact Hl].
  rewrite collapse_list_cons.
  assert (Hm : merges x rest = false).
  { unfold merges. destruct Hx as [-> | ->];
      [reflexivity|rewrite andb_false_r; reflexivity]. }
  rewrite Hm. reflexivity.
Qed.

Lemma collapse_after_kept_line_witness :
  split_lines (_collapse_skill_lines
                 (join nl ["Technical Skills"; "Python"; "C++"; "Rust"]))
  = "Technical Skills"
    :: split_lines (_collapse_skill_lines (join nl ["Python"; "C++"; "Rust"])).
Proof.
  apply collapse_after_kept_line.
  - discriminate.
  - repeat constructor.
  - left. reflexivity.
Defined.

Lemma take_while_app_stop {A} (p : A -> bool) (l : list A) (b : A) (more : list A) :
  Forall (fun x => p x = true) l -> p b = false ->
  take_while p (l ++ b :: more) = l.
Proof.
  intros Hl Hb. induction Hl as [|x l Hx _ IH]; simpl.
  - rewrite Hb. reflexivity.
  - rewrite Hx, IH. reflexivity.
Qed.

(** X7: a run ends at the first line that is not collectable: a candidate
    line and two or more collectable lines before such a line become one
    line, and the text from that line on is normalized on its own. *)
Theorem collapse_run_then_rest (x : string) (items : list string)
  (b : string) (more : list string) :
  all_no_lf (x :: items ++ b :: more) ->
  is_header (strip x) = false ->
  looks_like_single_item (strip x) = true ->
  Forall (fun l => collectable l = true) items ->
  2 <= length items ->
  collectable b = false ->
  split_lines (_collapse_skill_lines (join nl (x :: items ++ b :: more)))
  = join ", " (map strip (x :: items))
    :: split_lines (_collapse_skill_lines (join nl (b :: more))).
Proof.
  intros Hl Hh Hs Hitems Hlen Hb.
  assert (Hbm : all_no_lf (b :: more)).
  { inversion Hl as [|? ? _ Hr]; subst. apply Forall_app in Hr. tauto. }
  rewrite !collapse_join; [|discriminate|exact Hbm|discriminate|exact Hl].
  rewrite collapse_list_cons. unfold merges, run_of.
  rewrite (take_while_app_stop collectable items b more Hitems Hb), Hh, Hs.
  cbn [negb andb length]. rewrite length_map.
  rewrite (proj2 (Nat.leb_le 3 (S (length items)))) by lia.
  replace (S (length items) - 1) with (length items) by lia.
  rewrite skipn_app, skipn_all, Nat.sub_diag. reflexivity.
Qed.

Lemma collapse_run_then_rest_witness :
  split_lines (_collapse_skill_lines
                 (join nl ["Python"; "C++"; "Rust"; ""; "Docker"; "Git"; "Linux"]))
  = "Python, C++, Rust"
    :: split_lines (_collapse_skill_lines (join nl [""; "Docker"; "Git"; "Linux"])).
Proof.
  apply (collapse_run_then_rest "Python" ["C++"; "Rust"] "" ["Docker"; "Git"; "Linux"]).
  - repeat constructor.
  - reflexivity.
  - reflexivity.
  - repeat constructor.
  - simpl. lia.
  - reflexivity.
Defined.

End NormalizerMore.

(** ** The sections of the context *)

Module ContextBuilderMore.
Import Str Py Monad ContextBuilder Rendering StrFacts StripFacts
  ContextBuilderFacts Examples.
Local Open Scope monad_scope.

(** A loop whose body appends [f x] for each element appends them all. *)
Lemma for_each_lines {A} (l : list A) (body : A -> M (list string) unit)
  (f : A -> list string) :
  (forall x, In x l -> forall parts, body x parts = (Ok tt, parts ++ f x)) ->
  forall parts, for_each l body parts = (Ok tt, parts ++ flat_map f l).
Proof.
  induction l as [|x l IH]; intros H parts; simpl.
  - rewrite app_nil_r. reflexivity.
  - unfold bind. rewrite (H x (or_introl eq_refl)).
    rewrite IH by (intros y Hy; apply H; right; exact Hy).
    rewrite <- app_assoc. reflexivity.
Qed.

Lemma skills_entry_lines (kv : string * value) (parts : list string) :
  skills_entry kv parts
  = (Ok tt, parts ++ (if skill_shown kv then [skill_line kv] else [])).
Proof.
  destruct kv as [key v]. unfold skills_entry, skill_shown, skill_line.
  cbn [fst snd]. destruct (String.eqb key "notes"); cbn [orb negb andb].
  - unfold ret. rewrite app_nil_r. reflexivity.
  - destruct (truthy v) eqn:E; cbn [negb].
    + destruct v; reflexivity.
    + unfold ret. rewrite app_nil_r. reflexivity.
Qed.

Lemma flat_map_filter_map {A B} (p : A -> bool) (f : A -> B) (l : list A) :
  flat_map (fun x => if p x then [f x] else []) l = map f (filter p l).
Proof.
  induction l as [|x l IH]; simpl; [reflexivity|].
  rewrite IH. destruct (p x); reflexivity.
Qed.

Lemma truthy_lookup (d : dict) (k : string) :
  truthy (dict_get d k VNone) = true ->
  subscript (VDict d) k = Ok (dict_get d k VNone).
Proof.
  unfold dict_get, subscript. destruct (lookup k d); [reflexivity|discriminate].
Qed.

Lemma skills_block_run (data : dict) (parts : list string) :
  skills_block data parts
  = (Ok tt,
     parts ++ match dict_get data "skills" VNone with
              | VDict (kv :: items) => skills_lines (kv :: items)
              | _ => []
              end).
Proof.
  unfold skills_block, py_or. cbv zeta.
  destruct (dict_get data "skills" VNone) as [|b|n|s0|l|items].
  - unfold ret. rewrite app_nil_r. reflexivity.
  - destruct b; unfold ret; rewrite app_nil_r; reflexivity.
  - cbn [truthy]. destruct (negb (int_value n =? 0)%Z); unfold ret;
      rewrite app_nil_r; reflexivity.
  - destruct s0; unfold ret; rewrite app_nil_r; reflexivity.
  - destruct l; unfold ret; rewrite app_nil_r; reflexivity.
  - destruct items as [|kv items];
      [unfold ret; rewrite app_nil_r; reflexivity|].
    cbn [truthy when]. unfold bind at 1. unfold append at 1.
    unfold bind at 1.
    rewrite (for_each_lines (kv :: items) skills_entry
               (fun x => if skill_shown x then [skill_line x] else []))
      by (intros x _ q; apply skills_entry_lines).
    rewrite flat_map_filter_map. unfold skills_lines.
    destruct (truthy (dict_get (kv :: items) "notes" VNone)) eqn:E; cbn [when].
    + unfold bind, lift. rewrite (truthy_lookup _ _ E). unfold ret, append.
      rewrite <- !app_assoc. reflexivity.
    + unfold ret. rewrite app_nil_r, <- app_assoc. reflexivity.
Qed.

Lemma experience_block_run (data : dict) (jobs : list dict)
  (parts : list string) :
  lookup "experience" data = Some (VList (map VDict jobs)) ->
  jobs <> [] ->
  experience_block data parts
  = (Ok tt, parts ++ "## Experience" :: flat_map job_lines jobs ++ [""]).
Proof.
  intros Hl Hne. unfold experience_block, dict_get, py_or. rewrite Hl.
  destruct jobs as [|j jobs]; [congruence|]. cbn [map truthy when].
  unfold bind at 1. unfold append at 1. unfold bind at 1.
  cbn [iterate lift ret]. unfold bind at 1.
  rewrite (for_each_lines _ _ (fun v => match v with
                                        | VDict d => job_lines d
                                        | _ => []
                                        end)).
  - unfold append. f_equal. rewrite <- !app_assoc. cbn [app]. do 2 f_equal.
    change (VDict j :: map VDict jobs) with (map VDict (j :: jobs)).
    generalize (j :: jobs). intros l. induction l as [|d l IH]; simpl;
      [reflexivity|]. rewrite IH. reflexivity.
  - intros x Hx q.
    change (VDict j :: map VDict jobs) with (map VDict (j :: jobs)) in Hx.
    apply in_map_iff in Hx as (d & <- & _).
    unfold bind, lift, get, ret, append, job_lines, field. cbv beta iota.
    rewrite <- app_assoc. reflexivity.
Qed.

(** X9: for a list of jobs that is not empty, each of them a
    dictionary, the experience block appends the label, two lines for
    each job in order and an empty line; a missing role, dates or
    description renders as nothing and a missing company as "N/A". *)
Theorem experience_block_lines (data : dict) (jobs : list dict)
  (parts : list string) :
  lookup "experience" data = Some (VList (map VDict jobs)) ->
  jobs <> [] ->
  experience_block data parts
  = (Ok tt, parts ++ "## Experience" :: flat_map job_lines jobs ++ [""]).
Proof. apply experience_block_run; assumption. Qed.

Lemma experience_block_lines_witness :
  section experience_block
    [("experience", VList [VDict [("role", VStr "Developer"); ("company", VNone)];
                           VDict [("dates", VInt year_2024)]])]
  = ["## Experience"; "- Developer at None ()"; "  ";
     "-  at N/A (2024)"; "  "; ""].
Proof.
  unfold section.
  rewrite (experience_block_lines _
             [[("role", VStr "Developer"); ("company", VNone)];
              [("dates", VInt year_2024)]]);
    [reflexivity|reflexivity|discriminate].
Defined.

(** The same for the projects. *)
Lemma projects_block_lines (data : dict) (ps : list dict) (parts : list string) :
  lookup "projects" data = Some (VList (map VDict ps)) ->
  ps <> [] ->
  projects_block data parts
  = (Ok tt, parts ++ "## Projects" :: flat_map project_lines ps ++ [""]).
Proof.
  intros Hl Hne. unfold projects_block, dict_get, py_or. rewrite Hl.
  destruct ps as [|j ps]; [congruence|]. cbn [map truthy when].
  unfold bind at 1. unfold append at 1. unfold bind at 1.
  cbn [iterate lift ret]. unfold bind at 1.
  rewrite (for_each_lines _ _ (fun v => match v with
                                        | VDict d => project_lines d
                                        | _ => []
                                        end)).
  - unfold append. f_equal. rewrite <- !app_assoc. cbn [app]. do 2 f_equal.
    change (VDict j :: map VDict ps) with (map VDict (j :: ps)).
    generalize (j :: ps). intros l. induction l as [|d l IH]; simpl;
      [reflexivity|]. rewrite IH. reflexivity.
  - intros x Hx q.
    change (VDict j :: map VDict ps) with (map VDict (j :: ps)) in Hx.
    apply in_map_iff in Hx as (d & <- & _).
    unfold bind, lift, get, ret, append, project_lines, field. cbv beta iota.
    rewrite <- app_assoc. reflexivity.
Qed.

Lemma education_entry_lines (e : dict) (parts : list string) :
  education_entry_ok e = true ->
  education_entry (VDict e) parts = (Ok tt, parts ++ education_lines e).
Proof.
  unfold education_entry_ok, education_entry, education_lines, py_or.
  cbv zeta. intros Hok. apply andb_true_iff in Hok as [Hd Hp].
  unfold bind, lift, get, ret, when. cbv beta iota.
  destruct (truthy (dict_get e "institution" VNone)) eqn:Ei;
    [rewrite (truthy_lookup _ _ Ei)|];
    (destruct (truthy (dict_get e "description" VNone)) eqn:Ed;
     [rewrite (truthy_lookup _ _ Ed)|]);
    destruct (dict_get e "degree" VNone) as [| | |sd| |]; try discriminate Hd;
    destruct (dict_get e "program" VNone) as [| | |sp| |]; try discriminate Hp;
    try destruct sd; try destruct sp; cbn [truthy nonempty iadd_str str];
    destruct (truthy (dict_get e "graduationYear" VNone)) eqn:Eg;
    destruct (truthy (dict_get e "dates" VNone)) eqn:Et;
    cbn [truthy nonempty iadd_str str]; cbv beta iota;
    rewrite ?Eg, ?Et; cbv beta iota;
    unfold append; cbn [str];
    rewrite ?append_assoc, ?append_nil_r, <- ?app_assoc; cbn [app];
    rewrite ?append_nil_r, ?app_nil_r; reflexivity.
Qed.

Lemma flat_map_dicts (f : dict -> list string) (l : list dict) :
  flat_map (fun v => match v with VDict d => f d | _ => [] end) (map VDict l)
  = flat_map f l.
Proof.
  induction l as [|d l IH]; simpl; [reflexivity|]. rewrite IH. reflexivity.
Qed.

Lemma education_block_run (data : dict) (es : list dict)
  (parts : list string) :
  lookup "education" data = Some (VList (map VDict es)) ->
  es <> [] ->
  forallb education_entry_ok es = true ->
  education_block data parts
  = (Ok tt, parts ++ "## Education" :: flat_map education_lines es ++ [""]).
Proof.
  intros Hl Hne Hok. unfold education_block, dict_get, py_or. rewrite Hl.
  destruct es as [|e0 es]; [congruence|]. cbn [map truthy when].
  change (VDict e0 :: map VDict es) with (map VDict (e0 :: es)).
  unfold bind at 1. unfold append at 1. unfold bind at 1.
  cbn [iterate lift ret]. unfold bind at 1.
  rewrite (for_each_lines _ _ (fun v => match v with
                                        | VDict d => education_lines d
                                        | _ => []
                                        end)).
  - unfold append. rewrite flat_map_dicts, <- !app_assoc. reflexivity.
  - intros x Hx q. apply in_map_iff in Hx as (d & <- & Hd).
    apply education_entry_lines.
    apply (proj1 (forallb_forall _ _) Hok), Hd.
Qed.

(** X10: for a list of education entries that is not empty, each a
    dictionary whose degree and program are text when given, the
    education block appends the label, the lines of each entry in order
    and an empty line.  The line of an entry is the degree, or the
    program when there is no degree, then the institution and the year
    when given, the graduation year going before the dates; a
    description adds a line of its own. *)
Theorem education_block_lines (data : dict) (es : list dict)
  (parts : list string) :
  lookup "education" data = Some (VList (map VDict es)) ->
  es <> [] ->
  forallb education_entry_ok es = true ->
  education_block data parts
  = (Ok tt, parts ++ "## Education" :: flat_map education_lines es ++ [""]).
Proof. apply education_block_run; assumption. Qed.

Lemma education_block_lines_witness :
  section education_block
    [("education",
      VList [VDict [("program", VStr "Boot camp"); ("dates", VStr "2022");
                    ("graduationYear", VInt year_2023)];
             VDict [("degree", VStr "BSc"); ("institution", VStr "PTUK");
                    ("description", VStr "Computer engineering")]])]
  = ["## Education"; "- Boot camp (2023)"; "- BSc - PTUK";
     "  Computer engineering"; ""].
Proof.
  unfold section.
  rewrite (education_block_lines _
             [[("program", VStr "Boot camp"); ("dates", VStr "2022");
               ("graduationYear", VInt year_2023)];
              [("degree", VStr "BSc"); ("institution", VStr "PTUK");
               ("description", VStr "Computer engineering")]]);
    [reflexivity|reflexivity|discriminate|reflexivity].
Defined.

Lemma profile_block_run (data : dict) (p : dict) (parts : list string) :
  lookup "profile" data = Some (VDict p) ->
  p <> [] ->
  dict_or_falsy (dict_get p "contact" VNone) = true ->
  dict_or_falsy (dict_get p "links" VNone) = true ->
  profile_block data parts = (Ok tt, parts ++ profile_lines p).
Proof.
  intros Hl Hne Hc Hk.
  assert (Hg : dict_get data "profile" VNone = VDict p)
    by (unfold dict_get; rewrite Hl; reflexivity).
  unfold profile_block, profile_lines. rewrite Hg.
  destruct p as [|kv p]; [congruence|].
  change (py_or (VDict (kv :: p)) (VDict [])) with (VDict (kv :: p)).
  cbn [truthy when]. cbv zeta. unfold dict_or_falsy in Hc, Hk.
  unfold bind, lift, get, ret, append, field, py_or. cbv beta iota.
  destruct (dict_get (kv :: p) "contact" VNone) as [|bc|nc|sc|lc|c];
    cbn [truthy is_dict negb orb] in Hc |- *;
    try (rewrite orb_false_r in Hc; apply negb_true_iff in Hc; rewrite Hc);
    try (destruct c as [|ckv c]);
    cbn [truthy when]; cbv beta iota;
    (destruct (dict_get (kv :: p) "links" VNone) as [|bl|nl|sl|ll|l];
     cbn [truthy is_dict negb orb] in Hk |- *;
     try (rewrite orb_false_r in Hk; apply negb_true_iff in Hk; rewrite Hk);
     try (destruct l as [|lkv l]);
     cbn [truthy when]; unfold ret; cbv beta iota;
     rewrite <- ?app_assoc; reflexivity).
Qed.

(** X11: for a profile that is a dictionary and not empty, whose contact
    and links are dictionaries when given, the profile block appends
    the label, the name and the job title (each with its label also
    when the value is missing), the e-mail and the phone only when
    there is a contact that is not empty, GitHub and LinkedIn only when
    there are links that are not empty, and an empty line. *)
Theorem profile_block_lines (data : dict) (p : dict) (parts : list string) :
  lookup "profile" data = Some (VDict p) ->
  p <> [] ->
  dict_or_falsy (dict_get p "contact" VNone) = true ->
  dict_or_falsy (dict_get p "links" VNone) = true ->
  profile_block data parts = (Ok tt, parts ++ profile_lines p).
Proof. apply profile_block_run; assumption. Qed.

Lemma profile_block_lines_witness :
  section profile_block
    [("profile", VDict [("name", VStr "Mayar"); ("contact", VDict []);
                        ("links", VDict [("github", VStr "gh")])])]
  = ["## Profile"; "Name: Mayar"; "Job title: ";
     "GitHub: gh"; "LinkedIn: "; ""].
Proof.
  unfold section.
  rewrite (profile_block_lines _
             [("name", VStr "Mayar"); ("contact", VDict []);
              ("links", VDict [("github", VStr "gh")])]);
    [reflexivity|reflexivity|discriminate|reflexivity|reflexivity].
Defined.

(** The block of a field whose value is false does nothing. *)
Lemma falsy_block (data : dict) (field : string)
  (block : dict -> M (list string) unit) :
  In (field, block) blocks ->
  truthy (dict_get data field VNone) = false ->
  block data = ret tt.
Proof.
  intros Hin Hf. unfold dict_get in Hf.
  destruct (lookup field data) as [v|] eqn:Hl.
  - apply (block_of_falsy_field data field block v Hin Hl). left. exact Hf.
  - apply (block_of_missing_field data field block Hin Hl).
Qed.

Lemma truthy_dict_get (d : dict) (k : string) (v : value) :
  dict_get d k VNone = v -> truthy v = true -> lookup k d = Some v.
Proof.
  unfold dict_get. destruct (lookup k d); intros <- H; [reflexivity|discriminate].
Qed.

Lemma all_dicts (entry_ok : dict -> bool) (l : list value) :
  forallb (fun e => match e with VDict d => entry_ok d | _ => false end) l = true ->
  exists ds, l = map VDict ds /\ forallb entry_ok ds = true.
Proof.
  induction l as [|e l IH]; simpl; intros H.
  - exists []. split; reflexivity.
  - apply andb_true_iff in H as [He Hl].
    destruct e as [| | | | |d]; try discriminate He.
    destruct (IH Hl) as (ds & -> & Hds). exists (d :: ds). simpl.
    rewrite He, Hds. split; reflexivity.
Qed.

Lemma profile_block_succeeds (data : dict) (parts : list string) :
  profile_ok (dict_get data "profile" VNone) = true ->
  exists out, profile_block data parts = (Ok tt, out).
Proof.
  unfold profile_ok. intros H.
  destruct (truthy (dict_get data "profile" VNone)) eqn:Ht.
  - cbn [negb orb] in H.
    destruct (dict_get data "profile" VNone) as [| | | | |p] eqn:Hg;
      try discriminate H.
    apply andb_true_iff in H as [Hc Hk].
    pose proof (truthy_dict_get _ _ _ Hg Ht) as Hl.
    eexists. apply (profile_block_run data p parts Hl); [|exact Hc|exact Hk].
    destruct p; [discriminate Ht|discriminate].
  - rewrite (falsy_block data "profile" profile_block); [eexists; reflexivity| |exact Ht].
    unfold blocks. simpl. tauto.
Qed.

Lemma experience_block_succeeds (data : dict) (parts : list string) :
  entries_ok (fun _ => true) (dict_get data "experience" VNone) = true ->
  exists out, experience_block data parts = (Ok tt, out).
Proof.
  unfold entries_ok. intros H.
  destruct (truthy (dict_get data "experience" VNone)) eqn:Ht.
  - cbn [negb orb] in H.
    destruct (dict_get data "experience" VNone) as [| | | |l|] eqn:Hg;
      try discriminate H.
    destruct (all_dicts _ l H) as (ds & -> & _).
    pose proof (truthy_dict_get _ _ _ Hg Ht) as Hl.
    eexists. apply (experience_block_run data ds parts Hl).
    destruct ds; [discriminate Ht|discriminate].
  - rewrite (falsy_block data "experience" experience_block);
      [eexists; reflexivity| |exact Ht].
    unfold blocks. simpl. tauto.
Qed.

Lemma projects_block_succeeds (data : dict) (parts : list string) :
  entries_ok (fun _ => true) (dict_get data "projects" VNone) = true ->
  exists out, projects_block data parts = (Ok tt, out).
Proof.
  unfold entries_ok. intros H.
  destruct (truthy (dict_get data "projects" VNone)) eqn:Ht.
  - cbn [negb orb] in H.
    destruct (dict_get data "projects" VNone) as [| | | |l|] eqn:Hg;
      try discriminate H.
    destruct (all_dicts _ l H) as (ds & -> & _).
    pose proof (truthy_dict_get _ _ _ Hg Ht) as Hl.
    eexists. apply (projects_block_lines data ds parts Hl).
    destruct ds; [discriminate Ht|discriminate].
  - rewrite (falsy_block data "projects" projects_block);
      [eexists; reflexivity| |exact Ht].
    unfold blocks. simpl. tauto.
Qed.

Lemma education_block_succeeds (data : dict) (parts : list string) :
  entries_ok education_entry_ok (dict_get data "education" VNone) = true ->
  exists out, education_block data parts = (Ok tt, out).
Proof.
  unfold entries_ok. intros H.
  destruct (truthy (dict_get data "education" VNone)) eqn:Ht.
  - cbn [negb orb] in H.
    destruct (dict_get data "education" VNone) as [| | | |l|] eqn:Hg;
      try discriminate H.
    destruct (all_dicts _ l H) as (ds & -> & Hds).
    pose proof (truthy_dict_get _ _ _ Hg Ht) as Hl.
    eexists. apply (education_block_run data ds parts Hl); [|exact Hds].
    destruct ds; [discriminate Ht|discriminate].
  - rewrite (falsy_block data "education" education_block);
      [eexists; reflexivity| |exact Ht].
    unfold blocks. simpl. tauto.
Qed.

Lemma entries_ok_weaken (f g : dict -> bool) (v : value) :
  (forall d, f d = true -> g d = true) ->
  entries_ok f v = true -> entries_ok g v = true.
Proof.
  intros Hfg. unfold entries_ok. destruct (negb (truthy v)); [reflexivity|].
  cbn [orb]. destruct v as [| | | |l|]; try discriminate.
  intros H. apply forallb_forall. intros e He.
  pose proof (proj1 (forallb_forall _ _) H e He) as Hf.
  destruct e; try discriminate Hf. apply Hfg, Hf.
Qed.

(** X12: [build_context] raises nothing on CV data of the expected
    shape whose leaves are scalars (the profile, its contact and its
    links are dictionaries when given; experience, projects and
    education are lists of dictionaries when given; the skills, when a
    dictionary, map to scalars or lists of scalars; every rendered leaf
    is [None], a boolean, an integer or a string, and the degree and the
    program of an education entry are strings when given): whatever
    keys are missing, it returns a text. *)
Theorem build_context_succeeds (data : dict) :
  well_formed_cv data = true -> exists s, build_context data = Ok s.
Proof.
  unfold well_formed_cv. intros H.
  apply andb_true_iff in H as [H _]. apply andb_true_iff in H as [H Hd].
  apply andb_true_iff in H as [H Hj]. apply andb_true_iff in H as [H He].
  apply andb_true_iff in H as [H _]. apply andb_true_iff in H as [Hp _].
  apply (entries_ok_weaken _ (fun _ => true)) in He; [|reflexivity].
  apply (entries_ok_weaken _ (fun _ => true)) in Hj; [|reflexivity].
  apply (entries_ok_weaken _ education_entry_ok) in Hd;
    [|intros d Hd'; apply andb_true_iff in Hd'; tauto].
  unfold build_context, build_parts, bind.
  destruct (profile_block_succeeds data [] Hp) as [o1 ->].
  destruct (experience_block_succeeds data o1 He) as [o2 ->].
  destruct (projects_block_succeeds data o2 Hj) as [o3 ->].
  destruct (education_block_succeeds data o3 Hd) as [o4 ->].
  rewrite skills_block_run. eexists. reflexivity.
Qed.

Lemma build_context_succeeds_witness :
  exists s, build_context sample_cv = Ok s.
Proof. apply build_context_succeeds. reflexivity. Defined.

(** X13: a profile that is true and is not a dictionary (a string that is
    not empty, a list, a number) makes [build_context] raise an
    [AttributeError], whatever else the data hold. *)
Theorem profile_not_dict (data : dict) (v : value) :
  lookup "profile" data = Some v ->
  truthy v = true -> is_dict v = false ->
  build_context data = Err AttributeError.
Proof.
  intros Hl Ht Hd. unfold build_context, build_parts, profile_block.
  unfold dict_get, py_or. rewrite Hl, Ht. rewrite Ht. cbn [when].
  destruct v; try discriminate Hd; reflexivity.
Qed.

Lemma profile_not_dict_witness :
  build_context [("profile", VStr "Mayar"); ("skills", VDict [("a", VStr "b")])]
  = Err AttributeError.
Proof.
  apply (profile_not_dict _ (VStr "Mayar")); reflexivity.
Defined.

(** X8: when the values of the skills are scalars ([None], booleans,
    integers, strings) or lists of scalars, the skills block raises
    nothing: for a dictionary that is not empty it appends the label,
    then one line for each entry in the order of the dictionary, leaving
    out the key "notes" and the entries whose value is false, then the
    notes when they are true; for skills that are not a dictionary, or
    are empty, it appends nothing. *)
Theorem skills_block_lines (data : dict) (parts : list string) :
  skills_ok (dict_get data "skills" VNone) = true ->
  skills_block data parts
  = (Ok tt,
     parts ++ match dict_get data "skills" VNone with
              | VDict (kv :: items) => skills_lines (kv :: items)
              | _ => []
              end).
Proof. intros _. apply skills_block_run. Qed.

Lemma skills_block_lines_witness :
  section skills_block sample_cv
  = ["## Skills"; "Frontend: React, Next.js, TypeScript"; "Notes: n/a"].
Proof.
  unfold section. rewrite (skills_block_lines sample_cv []); reflexivity.
Defined.

Lemma hash_first_labelled (here : bool) (t : string) (lines : list string) :
  labelled here (String "#" t) lines -> hash_first lines.
Proof.
  unfold labelled, hash_first. destruct here.
  - intros [rest ->] x Hx. injection Hx as <-. eauto.
  - intros -> x Hx. discriminate Hx.
Qed.

Lemma hash_first_app (a b : list string) :
  hash_first a -> hash_first b -> hash_first (a ++ b).
Proof.
  unfold hash_first. destruct a as [|x a]; simpl; auto.
Qed.

Lemma strip_hash_first (l : list string) :
  hash_first l -> strip (join nl l) = "" -> l = [].
Proof.
  destruct l as [|x rest]; [reflexivity|]. intros H Hs. exfalso.
  destruct (H x eq_refl) as [t ->].
  assert (Hj : exists u, join nl (String "#" t :: rest) = String "#" u).
  { destruct rest as [|y rest]; [exists t; reflexivity|].
    rewrite NormalizerMore.join_cons2. simpl. eauto. }
  destruct Hj as [u Hu]. rewrite Hu in Hs. unfold strip in Hs.
  rewrite (lstrip_fixed "#" u eq_refl) in Hs.
  destruct (rstrip_head "#" u eq_refl) as [r Hr]. congruence.
Qed.

(** X14: when [build_context] returns, the context is empty exactly when
    none of the five fields is present, that is, when no section is
    written. *)
Theorem empty_context_iff (data : dict) (s : string) :
  build_context data = Ok s ->
  (s = "" <-> forall field block, In (field, block) blocks ->
                                  present data field = false).
Proof.
  intros H. unfold build_context in H.
  pose proof (build_parts_sections data) as Hs.
  destruct (build_parts data []) as [[[]|e] parts]; [|discriminate].
  injection H as <-. simpl in Hs. rewrite (Hs eq_refl). clear Hs.
  pose proof (labelled_profile data) as Lp.
  pose proof (labelled_experience data) as Le.
  pose proof (labelled_projects data) as Lj.
  pose proof (labelled_education data) as Ld.
  pose proof (labelled_skills data) as Lk.
  split.
  - intros Hempty. apply strip_hash_first in Hempty.
    2:{ repeat apply hash_first_app; eapply hash_first_labelled; eassumption. }
    apply app_eq_nil in Hempty as [Hp Hempty].
    apply app_eq_nil in Hempty as [He Hempty].
    apply app_eq_nil in Hempty as [Hj Hempty].
    apply app_eq_nil in Hempty as [Hd Hk].
    rewrite Hp in Lp. rewrite He in Le. rewrite Hj in Lj.
    rewrite Hd in Ld. rewrite Hk in Lk.
    assert (Hno : forall b label, labelled b label [] -> b = false).
    { intros [] label Hb; [destruct Hb as [? Hb]; discriminate Hb|reflexivity]. }
    unfold blocks. simpl.
    intros field block [E|[E|[E|[E|[E|[]]]]]]; injection E as <- <-;
      eapply Hno; eassumption.
  - intros Hall.
    rewrite (Hall "profile" profile_block) in Lp by (unfold blocks; simpl; tauto).
    rewrite (Hall "experience" experience_block) in Le by (unfold blocks; simpl; tauto).
    rewrite (Hall "projects" projects_block) in Lj by (unfold blocks; simpl; tauto).
    rewrite (Hall "education" education_block) in Ld by (unfold blocks; simpl; tauto).
    rewrite (Hall "skills" skills_block) in Lk by (unfold blocks; simpl; tauto).
    unfold labelled in *. rewrite Lp, Le, Lj, Ld, Lk. reflexivity.
Qed.

Lemma empty_context_iff_witness :
  "" = "" <-> forall field block, In (field, block) blocks ->
                                  present hollow_cv field = false.
Proof. apply (empty_context_iff hollow_cv ""). reflexivity. Defined.

End ContextBuilderMore.

(** ** The call to the endpoint and its outcomes *)

Module AssistantMore.
Import Str Py Monad Normalizer ContextBuilder Assistant StrFacts Examples
  AssistantFacts.

Section Outcomes.
Variable SYSTEM_PROMPT : string.
Variable environ : string -> option string.
Variable groq : string -> request -> result response.

#[local] Abbreviation answer := (answer_question SYSTEM_PROMPT environ groq).
#[local] Abbreviation the_call k user :=
  {| call_key := k; call_request := build_request SYSTEM_PROMPT user |}.

(** Past the two guards and the assembly of the message, the function
    makes its call and branches on what the endpoint gives. *)
Lemma answer_after_guards question data history calls k context user :
  environ "GROQ_API_KEY" = Some k -> strip k <> "" ->
  build_context data = Ok context -> context <> "" ->
  user_content context history question = Ok user ->
  answer question data history calls
  = match groq k (build_request SYSTEM_PROMPT user) with
    | Err e => (Err e, calls ++ [the_call k user])
    | Ok resp =>
        match choices resp with
        | [] => (Err EmptyResponseError, calls ++ [the_call k user])
        | ch :: _ =>
            match message ch with
            | None => (Err EmptyResponseError, calls ++ [the_call k user])
            | Some m =>
                (Ok (_collapse_skill_lines
                       (strip (match reply_content m with
                               | Some s => s
                               | None => ""
                               end))),
                 calls ++ [the_call k user])
            end
        end
    end.
Proof.
  intros Hk Hs Hctx Hne Hu. unfold answer_question. cbv zeta.
  destruct (credential_blank (environ "GROQ_API_KEY")) eqn:Hb.
  - apply credential_blank_iff in Hb as [Hb|(k' & Hb & Hs')]; congruence.
  - unfold bind, lift. rewrite Hctx. cbn [ret].
    destruct context as [|c context]; [congruence|]. cbn [nonempty negb].
    rewrite Hu, Hk. cbn [ret chat_completions_create].
    destruct (groq k _) as [resp|e]; [|reflexivity].
    destruct (choices resp) as [|ch chs]; [reflexivity|].
    destruct (message ch); reflexivity.
Qed.

(** X15: when the endpoint answers, the result is the content of the
    message of the first choice, trimmed and passed through the
    normalizer; the other choices play no part, and exactly one call has
    been made. *)
Theorem answer_first_choice question data history calls k context user
  resp ch others m text :
  environ "GROQ_API_KEY" = Some k -> strip k <> "" ->
  build_context data = Ok context -> context <> "" ->
  user_content context history question = Ok user ->
  groq k (build_request SYSTEM_PROMPT user) = Ok resp ->
  choices resp = ch :: others ->
  message ch = Some m ->
  reply_content m = Some text ->
  answer question data history calls
  = (Ok (_collapse_skill_lines (strip text)), calls ++ [the_call k user]).
Proof.
  intros Hk Hs Hctx Hne Hu Hg Hc Hm Ht.
  rewrite (answer_after_guards _ _ _ _ _ _ _ Hk Hs Hctx Hne Hu), Hg, Hc, Hm, Ht.
  reflexivity.
Qed.

(** X16: a first choice whose message has no content, or a content that
    is empty after trimming, is no error: the function returns the empty
    string. *)
Theorem answer_blank_content question data history calls k context user
  resp ch others m :
  environ "GROQ_API_KEY" = Some k -> strip k <> "" ->
  build_context data = Ok context -> context <> "" ->
  user_content context history question = Ok user ->
  groq k (build_request SYSTEM_PROMPT user) = Ok resp ->
  choices resp = ch :: others ->
  message ch = Some m ->
  (reply_content m = None
   \/ exists text, reply_content m = Some text /\ strip text = "") ->
  answer question data history calls = (Ok "", calls ++ [the_call k user]).
Proof.
  intros Hk Hs Hctx Hne Hu Hg Hc Hm Ht.
  rewrite (answer_after_guards _ _ _ _ _ _ _ Hk Hs Hctx Hne Hu), Hg, Hc, Hm.
  destruct Ht as [->|(text & -> & ->)]; reflexivity.
Qed.

(** X17: a response without choices, or whose first choice has no
    message, makes the function raise the error of line 176, after its
    one call. *)
Theorem answer_empty_response question data history calls k context user resp :
  environ "GROQ_API_KEY" = Some k -> strip k <> "" ->
  build_context data = Ok context -> context <> "" ->
  user_content context history question = Ok user ->
  groq k (build_request SYSTEM_PROMPT user) = Ok resp ->
  (choices resp = []
   \/ exists ch others, choices resp = ch :: others /\ message ch = None) ->
  answer question data history calls
  = (Err (ValueError "Empty response from Groq"), calls ++ [the_call k user]).
Proof.
  intros Hk Hs Hctx Hne Hu Hg Hc.
  rewrite (answer_after_guards _ _ _ _ _ _ _ Hk Hs Hctx Hne Hu), Hg.
  destruct Hc as [->|(ch & others & -> & ->)]; reflexivity.
Qed.

(** X18: an exception raised by the endpoint comes out as it is: the
    function neither catches it nor calls again. *)
Theorem answer_endpoint_error question data history calls k context user e :
  environ "GROQ_API_KEY" = Some k -> strip k <> "" ->
  build_context data = Ok context -> context <> "" ->
  user_content context history question = Ok user ->
  groq k (build_request SYSTEM_PROMPT user) = Err e ->
  answer question data history calls = (Err e, calls ++ [the_call k user]).
Proof.
  intros Hk Hs Hctx Hne Hu Hg.
  rewrite (answer_after_guards _ _ _ _ _ _ _ Hk Hs Hctx Hne Hu), Hg.
  reflexivity.
Qed.

(** X19: whatever its arguments and whatever the endpoint does, the
    function leaves the calls made before it as they are and adds at
    most one, made with the credential of the environment and carrying
    the fixed model, limits and system message. *)
Theorem at_most_one_call question data history calls :
  exists extra,
    snd (answer question data history calls) = calls ++ extra
    /\ length extra <= 1
    /\ forall c, In c extra ->
         environ "GROQ_API_KEY" = Some (call_key c)
         /\ exists user, call_request c = build_request SYSTEM_PROMPT user.
Proof.
  assert (Hnone : forall (r : result string),
            exists extra,
              snd (r, calls) = calls ++ extra /\ length extra <= 1
              /\ forall c, In c extra ->
                   environ "GROQ_API_KEY" = Some (call_key c)
                   /\ exists user, call_request c = build_request SYSTEM_PROMPT user).
  { intros r. exists []. rewrite app_nil_r.
    split; [reflexivity|]. split; [simpl; lia|]. intros c []. }
  unfold answer_question. cbv zeta.
  destruct (credential_blank (environ "GROQ_API_KEY")) eqn:Hb; [apply Hnone|].
  destruct (environ "GROQ_API_KEY") as [k|] eqn:Hk; [|discriminate Hb].
  unfold bind, lift.
  destruct (build_context data) as [context|e]; [|apply Hnone].
  cbn [ret]. destruct (negb (nonempty context)); [apply Hnone|].
  destruct (user_content context history question) as [user|e]; [|apply Hnone].
  cbn [ret chat_completions_create].
  assert (Hone : forall (r : result string),
            exists extra,
              snd (r, calls ++ [the_call k user]) = calls ++ extra
              /\ length extra <= 1
              /\ forall c, In c extra ->
                   Some k = Some (call_key c)
                   /\ exists u, call_request c = build_request SYSTEM_PROMPT u).
  { intros r. exists [the_call k user].
    split; [reflexivity|]. split; [simpl; lia|].
    intros c [<-|[]]. split; [reflexivity|]. exists user. reflexivity. }
  destruct (groq k _) as [resp|e]; [|apply Hone].
  destruct (choices resp) as [|ch chs]; [apply Hone|].
  destruct (message ch); apply Hone.
Qed.

End Outcomes.

Lemma answer_first_choice_witness :
  exists calls,
    answer_question "" env_key groq_skills "Skills?" sample_cv None []
    = (Ok (_collapse_skill_lines
             (strip (" Python" ++ nl ++ "C++" ++ nl ++ "Rust ")%string)), calls)
    /\ _collapse_skill_lines (strip (" Python" ++ nl ++ "C++" ++ nl ++ "Rust ")%string)
       = "Python, C++, Rust".
Proof.
  eexists. split; [|vm_compute; reflexivity].
  eapply (answer_first_choice "" env_key groq_skills "Skills?" sample_cv None []
            "gsk_test").
  - reflexivity.
  - vm_compute. discriminate.
  - vm_compute. reflexivity.
  - discriminate.
  - vm_compute. reflexivity.
  - reflexivity.
  - reflexivity.
  - reflexivity.
  - reflexivity.
Defined.

Lemma answer_blank_content_witness :
  exists calls,
    answer_question "" env_key groq_silent "Skills?" sample_cv None []
    = (Ok "", calls).
Proof.
  eexists.
  eapply (answer_blank_content "" env_key groq_silent "Skills?" sample_cv None []
            "gsk_test").
  - reflexivity.
  - vm_compute. discriminate.
  - vm_compute. reflexivity.
  - discriminate.
  - vm_compute. reflexivity.
  - reflexivity.
  - reflexivity.
  - reflexivity.
  - left. reflexivity.
Defined.

Lemma answer_empty_response_witness :
  exists calls,
    answer_question "" env_key groq_no_choice "Skills?" sample_cv None []
    = (Err (ValueError "Empty response from Groq"), calls).
Proof.
  eexists.
  eapply (answer_empty_response "" env_key groq_no_choice "Skills?" sample_cv
            None [] "gsk_test").
  - reflexivity.
  - vm_compute. discriminate.
  - vm_compute. reflexivity.
  - discriminate.
  - vm_compute. reflexivity.
  - reflexivity.
  - left. reflexivity.
Defined.

Lemma answer_endpoint_error_witness :
  exists calls,
    answer_question "" env_key groq_down "Skills?" sample_cv None []
    = (Err (ExternalError "unreachable"), calls).
Proof.
  eexists.
  eapply (answer_endpoint_error "" env_key groq_down "Skills?" sample_cv None []
            "gsk_test").
  - reflexivity.
  - vm_compute. discriminate.
  - vm_compute. reflexivity.
  - discriminate.
  - vm_compute. reflexivity.
  - reflexivity.
Defined.

(** X20: without a history, none given or an empty list, the user message
    is the CV context followed by the question, with no "Recent
    conversation:" section. *)
Theorem user_content_without_history (context : string)
  (history : option (list value)) (question : string) :
  history = None \/ history = Some [] ->
  user_content context history question
  = Ok ("CV context:" ++ nl ++ context ++ nl
        ++ "Current question: " ++ strip question)%string.
Proof.
  intros [-> | ->]; unfold user_content; cbv zeta; cbn [history_given when];
    unfold bind, ret, append; cbv beta iota; cbn [app];
    rewrite !join_empty_cons; simpl;
    rewrite ?append_assoc, ?append_nil_r; reflexivity.
Qed.

Lemma user_content_without_history_witness :
  user_content "ctx" (Some []) " Who is Mayar? "
  = Ok ("CV context:" ++ nl ++ "ctx" ++ nl
        ++ "Current question: " ++ "Who is Mayar?")%string.
Proof. apply (user_content_without_history "ctx" (Some []) " Who is Mayar? "). right. reflexivity. Defined.

(** The loop body raises nothing but an [AttributeError]. *)
Lemma history_entry_outcome (msg : value) (parts : list string) :
  (exists out, history_entry msg parts = (Ok tt, out))
  \/ (exists out, history_entry msg parts = (Err AttributeError, out)).
Proof.
  unfold history_entry, bind, lift, get, ret, raise, when, append, lower_of,
    strip_of, py_or.
  destruct msg as [| | | | |d]; try (right; eexists; reflexivity).
  destruct (truthy (dict_get d "role" VNone));
    [destruct (dict_get d "role" VNone); try (right; eexists; reflexivity)|];
    (destruct (truthy (dict_get d "content" VNone));
     [destruct (dict_get d "content" VNone); try (right; eexists; reflexivity)|]);
    cbv beta iota;
    match goal with
    | |- context [if nonempty ?x then _ else _] => destruct (nonempty x)
    end; left; eexists; reflexivity.
Qed.

Lemma history_entry_not_dict (msg : value) (parts : list string) :
  is_dict msg = false -> history_entry msg parts = (Err AttributeError, parts).
Proof. destruct msg; try discriminate; reflexivity. Qed.

Lemma history_loop_not_dict (l : list value) (msg : value) (parts : list string) :
  In msg l -> is_dict msg = false ->
  exists out, for_each l history_entry parts = (Err AttributeError, out).
Proof.
  revert parts. induction l as [|x l IH]; intros parts Hin Hd; [contradiction|].
  simpl. unfold bind.
  destruct (history_entry_outcome x parts) as [[out E]|[out E]]; rewrite E.
  - destruct Hin as [->|Hin].
    + rewrite (history_entry_not_dict msg parts Hd) in E. discriminate E.
    + apply IH; assumption.
  - eexists. reflexivity.
Qed.

(** X21: an entry among the last six of the history that is not a
    dictionary makes the function raise an [AttributeError] before any
    call to the endpoint. *)
Theorem malformed_history_raises SYSTEM_PROMPT environ groq question data
  (history : list value) calls k context msg :
  environ "GROQ_API_KEY" = Some k -> strip k <> "" ->
  build_context data = Ok context -> context <> "" ->
  In msg (last_n 6 history) -> is_dict msg = false ->
  answer_question SYSTEM_PROMPT environ groq question data (Some history) calls
  = (Err AttributeError, calls).
Proof.
  intros Hk Hs Hctx Hne Hin Hd. unfold answer_question. cbv zeta.
  destruct (credential_blank (environ "GROQ_API_KEY")) eqn:Hb.
  - apply credential_blank_iff in Hb as [Hb|(k' & Hb & Hs')]; congruence.
  - unfold bind at 1. unfold lift at 1. rewrite Hctx. cbn [ret].
    destruct context as [|c context]; [congruence|]. cbn [nonempty negb].
    assert (Hu : user_content (String c context) (Some history) question
                 = Err AttributeError).
    { unfold user_content. cbv zeta.
      assert (Hg : history_given (Some history) = true).
      { destruct history; [destruct Hin|reflexivity]. }
      rewrite Hg. cbn [when history_list].
      unfold bind at 1. unfold bind at 1. unfold append at 1. unfold bind at 1.
      destruct (history_loop_not_dict _ msg
                  ([("CV context:" ++ nl ++ String c context)%string; nl]
                   ++ [("Recent conversation:" ++ nl)%string]) Hin Hd)
        as [out ->].
      reflexivity. }
    unfold bind, lift. rewrite Hu. reflexivity.
Qed.

Lemma malformed_history_raises_witness :
  answer_question "" env_key groq_skills "Skills?" sample_cv
    (Some [VStr "hello"; VDict [("role", VStr "user"); ("content", VStr "hi")]]) []
  = (Err AttributeError, []).
Proof.
  eapply (malformed_history_raises "" env_key groq_skills "Skills?" sample_cv
            _ [] "gsk_test" _ (VStr "hello")).
  - reflexivity.
  - vm_compute. discriminate.
  - vm_compute. reflexivity.
  - discriminate.
  - left. reflexivity.
  - reflexivity.
Defined.

End AssistantMore.
